(** * The type-checking error cause sleuth of beartype

    A shallow embedding of [beartype/_util/hint/pep/error/_utilhintpeperrorsleuth.py]
    (class [CauseSleuth]: its initializer, [get_cause_or_none] and [permute]),
    together with the properties of the sleuth that the specification states.

    Python objects live in a store; an instance of [CauseSleuth] is its
    [__dict__], a finite map from attribute names to values.  Methods are
    written in a small state-and-exception monad over that store. *)

From Stdlib Require Import ZArith String Ascii List Lia.
From stdpp Require Import base option list strings pretty gmap.

Local Open Scope string_scope.
Local Open Scope list_scope.

#[local] Set Warnings "-register-all".

(** ** Python values *)

(** Addresses of mutable objects in the store. *)
Abbreviation loc := nat (only parsing).

(** The values the sleuth handles.  Hints and piths are immutable from the
    sleuth's point of view, so they are structural values; [PyRef] is a
    reference to a mutable object of the store (an instance with a
    [__dict__]). *)
Inductive pyobj : Type :=
| PyNone
| PyInt (z : Z)
| PyStr (s : string)
| PyClass (name : string)
| PyTyping (attr : string) (args : list pyobj)
| PyTuple (items : list pyobj)
| PyList (items : list pyobj)
| PyDict (keys : list pyobj) (values : list pyobj)
| PyRef (l : loc).

(** [isinstance(v, str)] *)
Definition isinstance_str (v : pyobj) : bool :=
  match v with PyStr _ => true | _ => false end.

(** [isinstance(v, type)]: [v] is a class that is not a [typing] object. *)
Definition isinstance_type (v : pyobj) : bool :=
  match v with PyClass _ => true | _ => false end.

(** [v is None] *)
Definition is_None (v : pyobj) : bool :=
  match v with PyNone => true | _ => false end.

(** ** Exceptions *)

Inductive exn : Type :=
| AssertionError (msg : string)
| AttributeError (name : string)
| _BeartypeUtilRaisePepException (msg : string).



(** ** The store and the monad of methods *)

(** An instance is its [__dict__]; the store is the list of all instances
    allocated so far, an address being an index into it. *)
Abbreviation instance := (gmap string pyobj) (only parsing).
Abbreviation heap := (list (gmap string pyobj)) (only parsing).

Inductive outcome (A : Type) : Type :=
| Ret (a : A)
| Raise (e : exn).
Arguments Ret {A} a.
Arguments Raise {A} e.

(** A computation maps a store to an outcome and a new store, or to [None]
    when the model assigns it no behaviour there: the receiver is not an
    allocated object, or a recursion budget is spent. *)
Definition M (A : Type) : Type := heap -> option (outcome A * heap).

Definition ret {A} (a : A) : M A := fun σ => Some (Ret a, σ).
Definition raise {A} (e : exn) : M A := fun σ => Some (Raise e, σ).
Definition undefined {A} : M A := fun _ => None.

Definition bind {A B} (m : M A) (k : A -> M B) : M B :=
  fun σ =>
    match m σ with
    | Some (Ret a, σ') => k a σ'
    | Some (Raise e, σ') => Some (Raise e, σ')
    | None => None
    end.

Declare Scope py_scope.
Delimit Scope py_scope with py.
Notation "x <- m ;; k" := (bind m (fun x => k))
  (at level 100, m at next level, right associativity) : py_scope.
Notation "m ;;; k" := (bind m (fun _ => k))
  (at level 100, right associativity) : py_scope.
Local Open Scope py_scope.

(** [object.__new__]: a fresh instance with the given [__dict__]. *)
Definition alloc (d : instance) : M loc :=
  fun σ => Some (Ret (length σ), σ ++ [d]).

(** [getattr(self, name)] *)
Definition getattr (self : loc) (name : string) : M pyobj :=
  fun σ =>
    match σ !! self with
    | None => None
    | Some d =>
        match d !! name with
        | Some v => Some (Ret v, σ)
        | None => Some (Raise (AttributeError name), σ)
        end
    end.

(** [setattr(self, name, value)] *)
Definition setattr (self : loc) (name : string) (value : pyobj) : M unit :=
  fun σ =>
    match σ !! self with
    | None => None
    | Some d => Some (Ret tt, <[self := <[name := value]> d]> σ)
    end.

(** [copy.copy(self)] of a plain instance: a new instance whose [__dict__]
    is a shallow copy of that of [self]; the initializer is not run. *)
Definition copy (self : loc) : M loc :=
  fun σ =>
    match σ !! self with
    | None => None
    | Some d => alloc d σ
    end.

(** [assert cond, msg] *)
Definition assert_ (cond : bool) (msg : string) : M unit :=
  if cond then ret tt else raise (AssertionError msg).

(** [for x in xs: body(x)] *)
Fixpoint for_each {A} (xs : list A) (body : A -> M unit) : M unit :=
  match xs with
  | [] => ret tt
  | x :: xs' => body x ;;; for_each xs' body
  end.

(** The double quote character, for messages that contain one. *)
Definition dq : string := String "034"%char EmptyString.

(** ** The sleuth *)

(** A getter is a function called with a sleuth, returning a cause or
    [None]: [get_cause_or_none_type] and the values of
    [_TYPING_ATTR_TO_GETTER]. *)
Abbreviation getter := (nat -> M pyobj) (only parsing).

(** The builtin [repr]. *)
Class Builtins := { repr : pyobj -> string }.

(** The hint classifier of [beartype._util.hint.pep], which the sleuth
    imports: total and pure (spec, 4.1). *)
Class HintClassifier := {
  is_hint_pep : pyobj -> bool;
  get_hint_pep_typing_attr : pyobj -> pyobj
}.

(** The getters, which live in other modules of the package: the getter
    of non-[typing] classes and the table from [typing] attributes to
    getters, read with [.get(attr, None)]. *)
Class Getters := {
  get_cause_or_none_type : getter;
  _TYPING_ATTR_TO_GETTER : pyobj -> option getter
}.

Section CauseSleuth.
Context {B : Builtins} {C : HintClassifier}.

(** A replacement field [{v}] of an f-string: [format(v, '')], which is
    [v] itself for a string and [str(v)], here [repr(v)], otherwise. *)
Definition fmt (v : pyobj) : string :=
  match v with PyStr s => s | _ => repr v end.

(** The classification of a hint: lines 76-80 of the source. *)
Definition classify (hint : pyobj) : pyobj :=
  if is_hint_pep hint then get_hint_pep_typing_attr hint else PyNone.

(** [CauseSleuth.__init__] *)
Definition __init__ (self : loc)
    (pith hint cause_indent exception_label : pyobj) : M unit :=
  assert_ (isinstance_str cause_indent)
          (repr cause_indent +:+ " not string.") ;;;
  assert_ (isinstance_str exception_label)
          (repr exception_label +:+ " not string.") ;;;
  setattr self "pith" pith ;;;
  setattr self "hint" hint ;;;
  setattr self "cause_indent" cause_indent ;;;
  setattr self "exception_label" exception_label ;;;
  h <- getattr self "hint" ;;
  hint_attr <- (if is_hint_pep h
                then h' <- getattr self "hint" ;;
                     ret (get_hint_pep_typing_attr h')
                else ret PyNone) ;;
  setattr self "hint_attr" hint_attr.

(** The call [CauseSleuth(pith, hint, cause_indent, exception_label)]:
    a new empty instance is created, then initialized. *)
Definition CauseSleuth
    (pith hint cause_indent exception_label : pyobj) : M loc :=
  self <- alloc ∅ ;;
  __init__ self pith hint cause_indent exception_label ;;;
  ret self.

(** The two messages of [get_cause_or_none]. *)
Definition msg_unsupported_nonpep (label hint : pyobj) : string :=
  fmt label +:+ " type hint " +:+ repr hint +:+
  " unsupported (i.e., neither PEP-compliant nor non-" +:+ dq +:+
  "typing" +:+ dq +:+ " class).".

Definition msg_unsupported_pep (label hint : pyobj) : string :=
  fmt label +:+ " PEP type hint " +:+ repr hint +:+
  " unsupported (i.e., no " +:+ dq +:+ "get_cause_or_none_" +:+ dq +:+
  "-prefixed getter function defined for this category of hint).".

Context {G : Getters}.

(** Lines 139-181 of [get_cause_or_none]: the local variable
    [get_cause_or_none] is bound to the getter to call, or the hint is
    reported as unsupported. *)
Definition select_getter (self : loc) : M getter :=
  hint_attr <- getattr self "hint_attr" ;;
  if is_None hint_attr then
    hint <- getattr self "hint" ;;
    if negb (isinstance_type hint) then
      label <- getattr self "exception_label" ;;
      hint <- getattr self "hint" ;;
      raise (_BeartypeUtilRaisePepException
               (msg_unsupported_nonpep label hint))
    else ret get_cause_or_none_type
  else
    hint_attr <- getattr self "hint_attr" ;;
    match _TYPING_ATTR_TO_GETTER hint_attr with
    | None =>
        label <- getattr self "exception_label" ;;
        hint <- getattr self "hint" ;;
        raise (_BeartypeUtilRaisePepException
                 (msg_unsupported_pep label hint))
    | Some get_cause_or_none => ret get_cause_or_none
    end.

(** [CauseSleuth.get_cause_or_none]: the selected getter is called with
    the sleuth, and what it returns is returned. *)
Definition get_cause_or_none (self : loc) : M pyobj :=
  get_cause_or_none <- select_getter self ;;
  get_cause_or_none self.

End CauseSleuth.

(** [CauseSleuth.permute]; the keyword arguments come in the order of the
    dictionary [kwargs]. *)
Definition permute (self : loc) (kwargs : list (string * pyobj)) : M loc :=
  sleuth_copy <- copy self ;;
  for_each kwargs (fun kv => setattr sleuth_copy kv.1 kv.2) ;;;
  ret sleuth_copy.

(** The [__dict__] of a copy after the keyword arguments have been set. *)
Definition overwrite (kwargs : list (string * pyobj)) (d : instance) : instance :=
  fold_left (fun d kv => <[kv.1 := kv.2]> d) kwargs d.

(** The [__dict__] of a sleuth when its initializer returns. *)
Definition sleuth_dict {C : HintClassifier}
    (pith hint cause_indent exception_label : pyobj) : instance :=
  <["hint_attr" := classify hint]>
    (<["exception_label" := exception_label]>
       (<["cause_indent" := cause_indent]>
          (<["hint" := hint]> (<["pith" := pith]> ∅)))).

(** The five instance variables of a sleuth. *)
Definition sleuth_fields : list string :=
  ["pith"; "hint"; "cause_indent"; "exception_label"; "hint_attr"].

(** [x] occurs in [msg]. *)
Definition embeds (x msg : string) : Prop :=
  ∃ pre post, msg = pre +:+ x +:+ post.

(** ** Hints and their explainers, after the specification

    The classifier, the getters and the table of getters are modules of
    the package other than the sleuth's.  What follows renders the
    specification's account of them (3, 4.1 and 4.3). *)

(** Modelled from the spec: the hint classifier (4.1), absent from the
    sources.  A hint is a recognized composite form when it is a [typing]
    object, and its category is then its argumentless [typing] attribute. *)
Definition spec_classifier : HintClassifier := {|
  is_hint_pep hint :=
    match hint with PyTyping _ _ => true | _ => false end;
  get_hint_pep_typing_attr hint :=
    match hint with PyTyping attr _ => PyTyping attr [] | _ => PyNone end
|}.

(** Modelled from the spec: the ordered sequence of child hints of a
    composite hint (3), which the sources read through helpers that are
    absent. *)
Definition hint_childs (hint : pyobj) : list pyobj :=
  match hint with PyTyping _ args => args | _ => [] end.

(** The nesting depth of a hint: a hint that is not composite has depth
    zero, a composite hint is one level above its deepest child. *)
Fixpoint hint_depth (hint : pyobj) : nat :=
  match hint with
  | PyTyping _ args => S (list_max (map hint_depth args))
  | _ => 0
  end.

(** The depth of the hint of a sleuth, read off its [__dict__]. *)
Definition depth_of (d : instance) : nat :=
  match d !! "hint" with Some hint => hint_depth hint | None => 0 end.

(** The name of the runtime class of a value. *)
Definition type_name (v : pyobj) : string :=
  match v with
  | PyNone => "NoneType"
  | PyInt _ => "int"
  | PyStr _ => "str"
  | PyClass _ => "type"
  | PyTyping _ _ => "typing"
  | PyTuple _ => "tuple"
  | PyList _ => "list"
  | PyDict _ _ => "dict"
  | PyRef _ => "object"
  end.

(** The runtime class of [pith] is the class [hint]. *)
Definition type_matches (pith hint : pyobj) : bool :=
  match hint with
  | PyClass name => String.eqb (type_name pith) name
  | _ => false
  end.

(** The items of a container, in container order. *)
Definition items_of (pith : pyobj) : list pyobj :=
  match pith with
  | PyTuple items | PyList items => items
  | _ => []
  end.

(** The key-value pairs of a mapping, in iteration order. *)
Definition pairs_of (pith : pyobj) : list (pyobj * pyobj) :=
  match pith with
  | PyDict keys values => zip keys values
  | _ => []
  end.

(** One descent of an explainer: where the child sits in its parent, and
    the keyword arguments passed to [permute] to reach it. *)
Abbreviation step := (string * list (string * pyobj))%type (only parsing).

Section Explainers.
Context {B : Builtins}.

(** Modelled from the spec: the explainer of plain classes (4.3,
    terminal), absent from the sources.  No further recursion: a message
    naming the actual runtime type of the pith against the expected
    class, or [None] if the type matches. *)
Definition get_cause_or_none_plain_class (sleuth : loc) : M pyobj :=
  pith <- getattr sleuth "pith" ;;
  hint <- getattr sleuth "hint" ;;
  if type_matches pith hint then ret PyNone
  else ret (PyStr (repr pith +:+ " is " +:+ type_name pith +:+
                   ", not " +:+ repr hint)).

(** Modelled from the spec: the descent shared by the explainers of
    composite hints (4.3), absent from the sources.  The children are
    visited in a fixed order; each is reached with [permute] and handed
    to the sleuth's [get_cause_or_none], here [rec]; the first cause
    that is not [None] is returned with its position, and [None] if
    there is none. *)
Fixpoint first_cause (rec : getter) (sleuth : loc) (steps : list step)
  : M pyobj :=
  match steps with
  | [] => ret PyNone
  | (position, kwargs) :: steps' =>
      child <- permute sleuth kwargs ;;
      cause <- rec child ;;
      if is_None cause then first_cause rec sleuth steps'
      else
        cause_indent <- getattr sleuth "cause_indent" ;;
        ret (PyStr (fmt cause_indent +:+ position +:+ ": " +:+ fmt cause))
  end.

(** Modelled from the spec: the explainer of unions (4.3).  The members
    are tried in declaration order, each with [permute(hint=member)]. *)
Definition get_cause_or_none_union (rec : getter) (sleuth : loc)
  : M pyobj :=
  hint <- getattr sleuth "hint" ;;
  first_cause rec sleuth
    (map (fun member => ("union member " +:+ repr member,
                         [("hint", member)]))
         (hint_childs hint)).

(** The descents into the items of a container checked against one
    child hint. *)
Definition item_steps (items : list pyobj) (child : pyobj) : list step :=
  imap (fun i item => ("index " +:+ pretty i,
                       [("pith", item); ("hint", child)])) items.

(** Modelled from the spec: the explainer of standard sequences (4.3).
    The items are visited in index order, each with
    [permute(pith=item, hint=child)]; a sequence hint without a child
    hint constrains no item. *)
Definition get_cause_or_none_sequence_standard (rec : getter)
    (sleuth : loc) : M pyobj :=
  pith <- getattr sleuth "pith" ;;
  hint <- getattr sleuth "hint" ;;
  match hint_childs hint with
  | [] => ret PyNone
  | child :: _ => first_cause rec sleuth (item_steps (items_of pith) child)
  end.

(** Modelled from the spec: the explainer of tuples (4.3).  The item at
    each index is checked against the child hint at that index. *)
Definition get_cause_or_none_tuple (rec : getter) (sleuth : loc)
  : M pyobj :=
  pith <- getattr sleuth "pith" ;;
  hint <- getattr sleuth "hint" ;;
  first_cause rec sleuth
    (imap (fun i ic => ("index " +:+ pretty i,
                        [("pith", ic.1); ("hint", ic.2)]))
          (zip (items_of pith) (hint_childs hint))).

(** Modelled from the spec: the explainer of mappings (4.3).  The pairs
    are visited in iteration order, the key against the first child hint
    and the value against the second. *)
Definition get_cause_or_none_mapping (rec : getter) (sleuth : loc)
  : M pyobj :=
  pith <- getattr sleuth "pith" ;;
  hint <- getattr sleuth "hint" ;;
  match hint_childs hint with
  | hint_key :: hint_value :: _ =>
      first_cause rec sleuth
        (flat_map (fun kv =>
                     [("key " +:+ repr kv.1,
                       [("pith", kv.1); ("hint", hint_key)]);
                      ("value of key " +:+ repr kv.1,
                       [("pith", kv.2); ("hint", hint_value)])])
                  (pairs_of pith))
  | _ => ret PyNone
  end.

(** Modelled from the spec: the explainer of generics (4.3).  A generic
    hint lists its origin class, then its type arguments.  The runtime
    class of the pith is checked first against the origin class, by the
    explainer of plain classes; if that passes, the items are checked
    against the first type argument, as for sequences. *)
Definition get_cause_or_none_generic (rec : getter) (sleuth : loc)
  : M pyobj :=
  pith <- getattr sleuth "pith" ;;
  hint <- getattr sleuth "hint" ;;
  match hint_childs hint with
  | [] => ret PyNone
  | origin :: args =>
      sleuth_origin <- permute sleuth [("hint", origin)] ;;
      cause <- get_cause_or_none_plain_class sleuth_origin ;;
      if is_None cause then
        match args with
        | [] => ret PyNone
        | child :: _ =>
            first_cause rec sleuth (item_steps (items_of pith) child)
        end
      else ret cause
  end.

(** Modelled from the spec: the table from categories to explainers
    (3), absent from the sources; [rec] is the sleuth's
    [get_cause_or_none], which the explainers call on children. *)
Definition spec_table (rec : getter) (attr : pyobj) : option getter :=
  match attr with
  | PyTyping name [] =>
      if String.eqb name "Union" then
        Some (get_cause_or_none_union rec)
      else if String.eqb name "List" || String.eqb name "Sequence" then
        Some (get_cause_or_none_sequence_standard rec)
      else if String.eqb name "Tuple" then
        Some (get_cause_or_none_tuple rec)
      else if String.eqb name "Dict" || String.eqb name "Mapping" then
        Some (get_cause_or_none_mapping rec)
      else if String.eqb name "Generic" then
        Some (get_cause_or_none_generic rec)
      else None
  | _ => None
  end.

Definition spec_getters (rec : getter) : Getters := {|
  get_cause_or_none_type := get_cause_or_none_plain_class;
  _TYPING_ATTR_TO_GETTER := spec_table rec
|}.

(** The sleuth with the explainers of the specification: the source's
    [get_cause_or_none], whose getters call it back on child sleuths.
    The budget [n] bounds the depth of these nested calls. *)
Fixpoint get_cause_or_none_fuel (n : nat) : getter :=
  match n with
  | 0 => fun _ => undefined
  | S n' =>
      @get_cause_or_none B (spec_getters (get_cause_or_none_fuel n'))
  end.

End Explainers.

(** A rendering of values that stands for the builtin [repr] in the
    examples. *)
Fixpoint repr_example (v : pyobj) : string :=
  let commas := fix commas (vs : list pyobj) : string :=
    match vs with
    | [] => EmptyString
    | [v] => repr_example v
    | v :: vs' => repr_example v +:+ ", " +:+ commas vs'
    end in
  match v with
  | PyNone => "None"
  | PyInt z => pretty z
  | PyStr s => "'" +:+ s +:+ "'"
  | PyClass name => "<class '" +:+ name +:+ "'>"
  | PyTyping attr [] => "typing." +:+ attr
  | PyTyping attr args => "typing." +:+ attr +:+ "[" +:+ commas args +:+ "]"
  | PyTuple items => "(" +:+ commas items +:+ ")"
  | PyList items => "[" +:+ commas items +:+ "]"
  | PyDict keys values =>
      "{" +:+ commas keys +:+ ": " +:+ commas values +:+ "}"
  | PyRef l => "<object at " +:+ pretty l +:+ ">"
  end.

Definition example_builtins : Builtins := {| repr := repr_example |}.


(** The category stored in a sleuth is the classification of its hint. *)
Definition category_current {C : HintClassifier} (d : instance) : Prop :=
  ∃ hint, d !! "hint" = Some hint ∧ d !! "hint_attr" = Some (classify hint).

(** A sleuth used in the examples: the list of the docstring of
    [permute], checked against [typing.List[int]]. *)
Definition example_sleuth : instance :=
  <["hint_attr" := PyTyping "List" []]>
    (<["exception_label" := PyStr "List of integers"]>
       (<["cause_indent" := PyStr "  "]>
          (<["hint" := PyTyping "List" [PyClass "int"]]>
             (<["pith" := PyList [PyInt 42]]> ∅)))).


(** The two ways a hint is unsupported: it has no category and is not a
    class, or it has a category for which the table holds no getter. *)
Definition unsupported_nonpep (hint_attr hint : pyobj) : Prop :=
  hint_attr = PyNone ∧ isinstance_type hint = false.

Definition unsupported_pep {G : Getters} (hint_attr : pyobj) : Prop :=
  hint_attr ≠ PyNone ∧ _TYPING_ATTR_TO_GETTER hint_attr = None.

(** The getter that [get_cause_or_none] selects for a category and a
    hint: the getter of plain classes when there is no category and the
    hint is a class, the getter of the table for a category. *)
Definition selects {G : Getters} (hint_attr hint : pyobj) (g : getter)
  : Prop :=
  (hint_attr = PyNone ∧ isinstance_type hint = true ∧
   g = get_cause_or_none_type) ∨
  (hint_attr ≠ PyNone ∧ _TYPING_ATTR_TO_GETTER hint_attr = Some g).


(** ** Purity of getters *)

(** Two runs agree: both have no outcome, or both have the same outcome
    and each has left the objects of its store as they were. *)
Definition agree {A} (x y : option (outcome A * heap)) (σ1 σ2 : heap)
  : Prop :=
  match x, y with
  | Some (r1, σ1'), Some (r2, σ2') =>
      r1 = r2 ∧ σ1 `prefix_of` σ1' ∧ σ2 `prefix_of` σ2'
  | None, None => True
  | _, _ => False
  end.

(** A getter is pure: its outcome is determined by the [__dict__] of the
    sleuth it is called with, and it changes no allocated object (it may
    allocate new ones). *)
Definition pure_getter (g : getter) : Prop :=
  ∀ (σ1 σ2 : heap) (s1 s2 : loc) (d : instance),
    σ1 !! s1 = Some d → σ2 !! s2 = Some d →
    agree (g s1 σ1) (g s2 σ2) σ1 σ2.

(** A getter has an outcome on every sleuth whose hint is nested less
    than [n] levels deep. *)
Definition terminating_below (n : nat) (g : getter) : Prop :=
  ∀ (σ : heap) (s : loc) (d : instance),
    σ !! s = Some d → depth_of d < n → is_Some (g s σ).


(** A sleuth whose hint is unsupported: a tuple of classes, which has no
    category and is not a class. *)
Definition example_unsupported : instance :=
  <["hint_attr" := PyNone]>
    (<["exception_label" := PyStr "Parameter x"]>
       (<["cause_indent" := PyStr "  "]>
          (<["hint" := PyTuple [PyClass "int"; PyClass "str"]]>
             (<["pith" := PyInt 3]> ∅)))).

(** The getters of the specification, with a budget of two nested
    calls, used in the examples. *)
Definition example_getters : Getters :=
  @spec_getters example_builtins
    (@get_cause_or_none_fuel example_builtins 2).


(** ** Further notions on sleuths *)

(** A sleuth has its five instance variables. *)
Definition has_fields (d : instance) : Prop :=
  ∀ field, field ∈ sleuth_fields → is_Some (d !! field).

(** The instance variables that the first phase of [get_cause_or_none]
    reads. *)
Definition dispatch_fields : list string :=
  ["hint_attr"; "hint"; "exception_label"].

(** ** The exceptions and warnings of [beartype.roar] *)

Module roar.

(** The classes that [roar.py] defines, after the builtin classes they
    derive from. *)
Inductive class : Type :=
| object
| BaseException
| Exception
| Warning
| UserWarning
| BeartypeException
| BeartypeCaveException
| BeartypeCaveNoneTypeOrException
| BeartypeCaveNoneTypeOrKeyException
| BeartypeCaveNoneTypeOrMutabilityException
| BeartypeDecorException
| BeartypeDecorWrappeeException
| BeartypeDecorWrapperException
| BeartypeDecorHintException
| BeartypeDecorHintValueException
| BeartypeDecorParamException
| BeartypeDecorParamNameException
| BeartypeDecorPepException
| BeartypeDecorPep563Exception
| BeartypeDecorPep484Exception
| BeartypeDecorPep484TypeUnsupportedException
| BeartypeCallException
| BeartypeCallBeartypistryException
| BeartypeCallTypeException
| BeartypeCallTypeParamException
| BeartypeCallTypeReturnException
| BeartypeCallableCachedException
| BeartypeWarning.

#[global] Instance class_eq_dec : EqDecision class.
Proof. solve_decision. Defined.

(** The base class in each [class] statement; for the builtin classes,
    the base class that Python gives them. *)
Definition base (c : class) : option class :=
  match c with
  | object => None
  | BaseException => Some object
  | Exception => Some BaseException
  | Warning => Some Exception
  | UserWarning => Some Warning
  | BeartypeException => Some Exception
  | BeartypeCaveException => Some BeartypeException
  | BeartypeCaveNoneTypeOrException => Some BeartypeCaveException
  | BeartypeCaveNoneTypeOrKeyException => Some BeartypeCaveNoneTypeOrException
  | BeartypeCaveNoneTypeOrMutabilityException =>
      Some BeartypeCaveNoneTypeOrException
  | BeartypeDecorException => Some BeartypeException
  | BeartypeDecorWrappeeException => Some BeartypeDecorException
  | BeartypeDecorWrapperException => Some BeartypeDecorException
  | BeartypeDecorHintException => Some BeartypeDecorException
  | BeartypeDecorHintValueException => Some BeartypeDecorHintException
  | BeartypeDecorParamException => Some BeartypeDecorException
  | BeartypeDecorParamNameException => Some BeartypeDecorParamException
  | BeartypeDecorPepException => Some BeartypeDecorException
  | BeartypeDecorPep563Exception => Some BeartypeDecorPepException
  | BeartypeDecorPep484Exception => Some BeartypeDecorPepException
  | BeartypeDecorPep484TypeUnsupportedException =>
      Some BeartypeDecorPep484Exception
  | BeartypeCallException => Some BeartypeException
  | BeartypeCallBeartypistryException => Some BeartypeCallException
  | BeartypeCallTypeException => Some BeartypeCallException
  | BeartypeCallTypeParamException => Some BeartypeCallTypeException
  | BeartypeCallTypeReturnException => Some BeartypeCallTypeException
  | BeartypeCallableCachedException => Some BeartypeException
  | BeartypeWarning => Some UserWarning
  end.

(** The class is one that [roar.py] defines. *)
Definition defined (c : class) : bool :=
  match c with
  | object | BaseException | Exception | Warning | UserWarning => false
  | _ => true
  end.

(** The [class] statement says [metaclass=_ABCMeta]. *)
Definition declares_ABCMeta (c : class) : bool :=
  match c with
  | BeartypeException
  | BeartypeCaveException
  | BeartypeCaveNoneTypeOrException
  | BeartypeDecorException
  | BeartypeDecorHintException
  | BeartypeDecorParamException
  | BeartypeDecorPepException
  | BeartypeDecorPep484Exception
  | BeartypeCallException
  | BeartypeCallTypeException
  | BeartypeWarning => true
  | _ => false
  end.

(** The method resolution order of a class with single inheritance: the
    class, then the order of its base.  No chain of bases is longer than
    the budget. *)
Fixpoint mro_from (budget : nat) (c : class) : list class :=
  c :: match budget, base c with
       | S budget', Some b => mro_from budget' b
       | _, _ => []
       end.

Definition mro (c : class) : list class := mro_from 16 c.

(** [issubclass(c, c')] *)
Definition issubclass (c c' : class) : bool := bool_decide (c' ∈ mro c).

End roar.

(** * Properties *)

(** ** The store: reading and writing *)

Section Store.
Implicit Types (σ : heap) (d : instance) (self : loc).

Lemma lookup_new σ d : (σ ++ [d]) !! length σ = Some d.
Proof. by apply list_lookup_middle. Qed.

Lemma insert_new σ d d' : <[length σ := d']> (σ ++ [d]) = σ ++ [d'].
Proof.
  rewrite insert_app_r_alt; [|lia]. by rewrite Nat.sub_diag.
Qed.

Lemma lookup_old σ d self o : σ !! self = Some o → (σ ++ [d]) !! self = Some o.
Proof. intros H. by apply lookup_app_l_Some. Qed.

Lemma allocated_lt σ self o : σ !! self = Some o → self < length σ.
Proof. apply lookup_lt_Some. Qed.

Lemma getattr_eq σ self d name :
  σ !! self = Some d →
  getattr self name σ =
    Some (match d !! name with
          | Some v => Ret v
          | None => Raise (AttributeError name)
          end, σ).
Proof. intros H. unfold getattr. rewrite H. by destruct (d !! name). Qed.

Lemma getattr_Some σ self d name v :
  σ !! self = Some d → d !! name = Some v →
  getattr self name σ = Some (Ret v, σ).
Proof. intros H Hv. by rewrite (getattr_eq _ _ _ _ H), Hv. Qed.

Lemma setattr_eq σ self d name v :
  σ !! self = Some d →
  setattr self name v σ = Some (Ret tt, <[self := <[name := v]> d]> σ).
Proof. intros H. unfold setattr. by rewrite H. Qed.

Lemma setattr_new σ d name v :
  setattr (length σ) name v (σ ++ [d]) = Some (Ret tt, σ ++ [<[name := v]> d]).
Proof. by rewrite (setattr_eq _ _ d), insert_new; [|apply lookup_new]. Qed.

Lemma getattr_new σ d name :
  getattr (length σ) name (σ ++ [d]) =
    Some (match d !! name with
          | Some v => Ret v
          | None => Raise (AttributeError name)
          end, σ ++ [d]).
Proof. apply getattr_eq, lookup_new. Qed.

Lemma copy_eq σ self d :
  σ !! self = Some d → copy self σ = Some (Ret (length σ), σ ++ [d]).
Proof. intros H. unfold copy. by rewrite H. Qed.

End Store.

Lemma for_each_setattr_new (kwargs : list (string * pyobj)) (σ : heap) (d : instance) :
  for_each kwargs (fun kv => setattr (length σ) kv.1 kv.2) (σ ++ [d]) =
    Some (Ret tt, σ ++ [overwrite kwargs d]).
Proof.
  revert d. induction kwargs as [|[name v] kwargs IH]; intros d; [done|].
  cbn [for_each]. unfold bind. rewrite setattr_new. cbn. apply IH.
Qed.

(** What [permute] computes: the store grows by one instance, the copy. *)
Lemma permute_eq (kwargs : list (string * pyobj)) (σ : heap) (self : loc) (d : instance) :
  σ !! self = Some d →
  permute self kwargs σ = Some (Ret (length σ), σ ++ [overwrite kwargs d]).
Proof.
  intros H. unfold permute, bind. rewrite (copy_eq _ _ _ H).
  by rewrite for_each_setattr_new.
Qed.

Lemma permute_undefined (kwargs : list (string * pyobj)) (σ : heap) (self : loc) :
  σ !! self = None → permute self kwargs σ = None.
Proof. intros H. unfold permute, bind, copy. by rewrite H. Qed.

(** ** Construction *)

Section Construction.
Context {B : Builtins} {C : HintClassifier}.

Lemma CauseSleuth_eq (pith hint ci el : pyobj) (σ : heap) :
  isinstance_str ci = true → isinstance_str el = true →
  CauseSleuth pith hint ci el σ =
    Some (Ret (length σ), σ ++ [sleuth_dict pith hint ci el]).
Proof.
  intros Hci Hel.
  unfold CauseSleuth, __init__, bind, alloc, assert_.
  rewrite Hci, Hel. unfold ret at 1 2.
  rewrite !setattr_new, getattr_new.
  rewrite lookup_insert_ne, lookup_insert_ne, lookup_insert_eq by done.
  unfold sleuth_dict, classify.
  destruct (is_hint_pep hint).
  - rewrite getattr_new.
    rewrite lookup_insert_ne, lookup_insert_ne, lookup_insert_eq by done.
    unfold ret at 1. by rewrite setattr_new.
  - unfold ret at 1. by rewrite setattr_new.
Qed.

Lemma CauseSleuth_not_str (pith hint ci el : pyobj) (σ : heap) :
  isinstance_str ci && isinstance_str el = false →
  ∃ msg, CauseSleuth pith hint ci el σ =
           Some (Raise (AssertionError msg), σ ++ [∅]).
Proof.
  intros H.
  unfold CauseSleuth, __init__, bind, alloc, assert_.
  destruct (isinstance_str ci); cbn in *; [|by eexists].
  rewrite H. by eexists.
Qed.

End Construction.

(** ** Permutation *)

Lemma overwrite_one (name : string) (v : pyobj) (d : instance) :
  overwrite [(name, v)] d = <[name := v]> d.
Proof. reflexivity. Qed.

(** Keywords other than [name] leave the attribute [name] alone. *)
Lemma overwrite_lookup_ne (kwargs : list (string * pyobj)) (d : instance)
    (name : string) :
  name ∉ kwargs.*1 → overwrite kwargs d !! name = d !! name.
Proof.
  revert d. induction kwargs as [|[k v] kwargs IH]; intros d Hnot; [done|].
  cbn in *. apply not_elem_of_cons in Hnot as [Hne Hnot].
  rewrite IH by done. by apply lookup_insert_ne.
Qed.


Section Category.
Context {B : Builtins} {C : HintClassifier}.

(** After construction the category is that of the hint. *)
Lemma CauseSleuth_category_current (pith hint ci el : pyobj) :
  category_current (sleuth_dict pith hint ci el).
Proof. exists hint. by unfold sleuth_dict; simplify_map_eq. Qed.

(** A [permute] that overrides neither the hint nor the category keeps
    the category current. *)
Lemma permute_category_current (kwargs : list (string * pyobj))
    (d : instance) :
  "hint" ∉ kwargs.*1 → "hint_attr" ∉ kwargs.*1 →
  category_current d → category_current (overwrite kwargs d).
Proof.
  intros Hh Ha (hint & Hhint & Hattr). exists hint.
  by rewrite !overwrite_lookup_ne.
Qed.

(** A [permute] that overrides the hint leaves the category of the
    parent's hint in place. *)
Lemma permute_hint_keeps_hint_attr (σ : heap) (self : loc) (d : instance)
    (hint' : pyobj) :
  σ !! self = Some d →
  ∃ d', permute self [("hint", hint')] σ =
          Some (Ret (length σ), σ ++ [d']) ∧
        d' !! "hint" = Some hint' ∧
        d' !! "hint_attr" = d !! "hint_attr".
Proof.
  intros H. eexists. split; [by apply permute_eq|].
  rewrite overwrite_one. by simplify_map_eq.
Qed.

End Category.

(** C1 (the code departs from it): the category of a sleuth is the
    classification of its current hint after construction and after every
    [permute].  At the sleuth built for the class [int], whose category is
    [None], [permute(hint=typing.List[int])] returns a sleuth whose hint
    is [typing.List[int]] and whose category is still [None], although the
    classification of [typing.List[int]] is [typing.List]. *)
Theorem permute_hint_stale_category :
  let _ := example_builtins in
  let _ := spec_classifier in
  let hint' := PyTyping "List" [PyClass "int"] in
  ∃ σ d,
    (sleuth <- CauseSleuth (PyInt 42) (PyClass "int")
                 (PyStr "  ") (PyStr "x") ;;
     permute sleuth [("hint", hint')]) [] = Some (Ret 1, σ) ∧
    σ !! 1 = Some d ∧
    d !! "hint" = Some hint' ∧
    d !! "hint_attr" = Some PyNone ∧
    classify hint' = PyTyping "List" [] ∧
    ¬ category_current d.
Proof.
  cbn zeta.
  set (hint' := PyTyping "List" [PyClass "int"]).
  set (d0 := @sleuth_dict spec_classifier (PyInt 42) (PyClass "int")
               (PyStr "  ") (PyStr "x")).
  assert (Hattr0 : d0 !! "hint_attr" = Some PyNone) by apply lookup_insert_eq.
  exists [d0; <["hint" := hint']> d0], (<["hint" := hint']> d0).
  split.
  { unfold bind.
    rewrite (@CauseSleuth_eq example_builtins spec_classifier
               (PyInt 42) (PyClass "int") (PyStr "  ") (PyStr "x") []
               eq_refl eq_refl).
    exact (permute_eq [("hint", hint')] [d0] 0 d0 eq_refl). }
  split; [reflexivity|].
  split; [apply lookup_insert_eq|].
  split; [by rewrite lookup_insert_ne|].
  split; [reflexivity|].
  intros (hint & Hhint & Hattr).
  rewrite lookup_insert_eq in Hhint. injection Hhint as <-.
  rewrite lookup_insert_ne, Hattr0 in Hattr by done. discriminate Hattr.
Qed.

(** C3: [sleuth.permute(pith=child)] returns a new sleuth whose pith is
    [child] and whose every other attribute is the parent's value itself;
    the parent, like every object allocated before the call, is left as it
    was. *)
Theorem permute_pith (σ : heap) (self : loc) (d : instance) (child : pyobj) :
  σ !! self = Some d →
  ∃ copy d' σ',
    permute self [("pith", child)] σ = Some (Ret copy, σ') ∧
    copy ≠ self ∧ σ' !! copy = Some d' ∧
    d' !! "pith" = Some child ∧
    d' !! "hint" = d !! "hint" ∧
    d' !! "hint_attr" = d !! "hint_attr" ∧
    d' !! "cause_indent" = d !! "cause_indent" ∧
    d' !! "exception_label" = d !! "exception_label" ∧
    (∀ name, name ≠ "pith" → d' !! name = d !! name) ∧
    σ' !! self = Some d ∧
    (∀ l o, σ !! l = Some o → σ' !! l = Some o).
Proof.
  intros H. exists (length σ), (<["pith" := child]> d), (σ ++ [<["pith" := child]> d]).
  split; [by rewrite (permute_eq _ _ _ _ H)|].
  split; [apply allocated_lt in H; lia|].
  split; [apply lookup_new|].
  split; [apply lookup_insert_eq|].
  do 4 (split; [by apply lookup_insert_ne|]).
  split; [by intros name Hname; apply lookup_insert_ne|].
  split; [by apply lookup_old|].
  intros l o Hl. by apply lookup_old.
Qed.

Lemma permute_pith_witness :
  [example_sleuth] !! 0 = Some example_sleuth ∧
  ∃ copy d' σ',
    permute 0 [("pith", PyList [PyInt 24])] [example_sleuth] =
      Some (Ret copy, σ') ∧
    copy ≠ 0 ∧ σ' !! copy = Some d' ∧
    d' !! "pith" = Some (PyList [PyInt 24]) ∧
    d' !! "hint" = example_sleuth !! "hint" ∧
    d' !! "hint_attr" = example_sleuth !! "hint_attr" ∧
    d' !! "cause_indent" = example_sleuth !! "cause_indent" ∧
    d' !! "exception_label" = example_sleuth !! "exception_label" ∧
    (∀ name, name ≠ "pith" → d' !! name = example_sleuth !! name) ∧
    σ' !! 0 = Some example_sleuth ∧
    (∀ l o, [example_sleuth] !! l = Some o → σ' !! l = Some o).
Proof.
  split; [reflexivity|].
  apply (permute_pith [example_sleuth] 0 example_sleuth (PyList [PyInt 24])).
  reflexivity.
Defined.

(** ** Validation *)

Section Validation.
Context {B : Builtins} {C : HintClassifier}.

(** C7: the constructor fails, on an assertion, exactly when the
    indentation or the error label is not a string; with two strings it
    returns a sleuth for any pith and any hint, whose category is
    derived from the hint. *)
Theorem CauseSleuth_validates_strings (pith hint ci el : pyobj) (σ : heap) :
  ((isinstance_str ci = false ∨ isinstance_str el = false) ↔
     ∃ msg σ', CauseSleuth pith hint ci el σ =
                 Some (Raise (AssertionError msg), σ')) ∧
  ((isinstance_str ci = true ∧ isinstance_str el = true) ↔
     ∃ self σ' d,
       CauseSleuth pith hint ci el σ = Some (Ret self, σ') ∧
       σ' !! self = Some d ∧
       d !! "pith" = Some pith ∧
       d !! "hint" = Some hint ∧
       d !! "cause_indent" = Some ci ∧
       d !! "exception_label" = Some el ∧
       d !! "hint_attr" = Some (classify hint)).
Proof.
  destruct (isinstance_str ci && isinstance_str el) eqn:Hboth.
  - apply andb_true_iff in Hboth as [Hci Hel].
    rewrite (CauseSleuth_eq _ _ _ _ _ Hci Hel). split; split.
    + intros [?|?]; congruence.
    + intros (? & ? & ?). discriminate.
    + intros _. eexists _, _, _. split; [done|].
      split; [apply lookup_new|].
      by unfold sleuth_dict; simplify_map_eq.
    + done.
  - destruct (CauseSleuth_not_str pith hint ci el σ Hboth) as [msg ->].
    apply andb_false_iff in Hboth. split; split.
    + by eexists _, _.
    + done.
    + intros [? ?]. destruct Hboth; congruence.
    + intros (? & ? & ? & ? & ?). discriminate.
Qed.


End Validation.




(** ** Dispatch *)

Lemma append_String (a : ascii) (s t : string) :
  String a s +:+ t = String a (s +:+ t).
Proof. reflexivity. Qed.

Lemma append_assoc (s t u : string) : (s +:+ t) +:+ u = s +:+ t +:+ u.
Proof.
  induction s as [|a s IH]; [done|].
  by rewrite !append_String, IH.
Qed.

Lemma embeds_head (x rest : string) : embeds x (x +:+ rest).
Proof. by exists EmptyString, rest. Qed.

Lemma embeds_third (a b x rest : string) :
  embeds x (a +:+ b +:+ x +:+ rest).
Proof. exists (a +:+ b), rest. by rewrite append_assoc. Qed.

Lemma is_None_true (v : pyobj) : is_None v = true ↔ v = PyNone.
Proof. by destruct v. Qed.

Lemma is_None_false (v : pyobj) : is_None v = false ↔ v ≠ PyNone.
Proof. by destruct v. Qed.

Section Dispatch.
Context {B : Builtins} {G : Getters}.
Implicit Types (σ : heap) (d : instance) (self : loc).

(** The first phase of [get_cause_or_none] reads the sleuth and leaves
    the store as it is. *)
Lemma select_getter_eq σ self d hint_attr hint label :
  σ !! self = Some d →
  d !! "hint_attr" = Some hint_attr →
  d !! "hint" = Some hint →
  d !! "exception_label" = Some label →
  select_getter self σ =
    Some (if is_None hint_attr then
            if isinstance_type hint then Ret get_cause_or_none_type
            else Raise (_BeartypeUtilRaisePepException
                          (msg_unsupported_nonpep label hint))
          else
            match _TYPING_ATTR_TO_GETTER hint_attr with
            | Some g => Ret g
            | None => Raise (_BeartypeUtilRaisePepException
                               (msg_unsupported_pep label hint))
            end, σ).
Proof.
  intros H Ha Hh Hl. unfold select_getter, bind.
  rewrite (getattr_Some _ _ _ _ _ H Ha).
  destruct (is_None hint_attr).
  - rewrite (getattr_Some _ _ _ _ _ H Hh).
    destruct (isinstance_type hint); cbn [negb]; [done|].
    by rewrite (getattr_Some _ _ _ _ _ H Hl), (getattr_Some _ _ _ _ _ H Hh).
  - rewrite (getattr_Some _ _ _ _ _ H Ha).
    destruct (_TYPING_ATTR_TO_GETTER hint_attr); [done|].
    by rewrite (getattr_Some _ _ _ _ _ H Hl), (getattr_Some _ _ _ _ _ H Hh).
Qed.

(** On an allocated sleuth the first phase always has an outcome, even
    when an attribute is missing, and the store is unchanged. *)
Lemma select_getter_total σ self d :
  σ !! self = Some d → ∃ r, select_getter self σ = Some (r, σ).
Proof.
  intros H. unfold select_getter, bind.
  rewrite (getattr_eq _ _ _ _ H).
  destruct (d !! "hint_attr") as [a|]; [|by eexists].
  destruct (is_None a).
  - rewrite (getattr_eq _ _ _ _ H).
    destruct (d !! "hint") as [h|] eqn:Hh; [|by eexists].
    destruct (isinstance_type h); cbn [negb]; [by eexists|].
    rewrite (getattr_eq _ _ _ _ H).
    destruct (d !! "exception_label"); [|by eexists].
    rewrite (getattr_eq _ _ _ _ H), Hh. by eexists.
  - rewrite (getattr_eq _ _ _ _ H).
    destruct (d !! "hint_attr") as [a'|]; [|by eexists].
    destruct (_TYPING_ATTR_TO_GETTER a'); [by eexists|].
    rewrite (getattr_eq _ _ _ _ H).
    destruct (d !! "exception_label"); [|by eexists].
    rewrite (getattr_eq _ _ _ _ H).
    destruct (d !! "hint"); by eexists.
Qed.

(** The getters that the first phase can return. *)
Lemma select_getter_Ret σ self g σ' :
  select_getter self σ = Some (Ret g, σ') →
  g = get_cause_or_none_type ∨ ∃ a, _TYPING_ATTR_TO_GETTER a = Some g.
Proof.
  destruct (σ !! self) as [d|] eqn:H.
  2: { unfold select_getter, bind, getattr. by rewrite H. }
  unfold select_getter, bind.
  rewrite (getattr_eq _ _ _ _ H).
  destruct (d !! "hint_attr") as [a|]; [|done].
  destruct (is_None a).
  - rewrite (getattr_eq _ _ _ _ H).
    destruct (d !! "hint") as [h|] eqn:Hh; [|done].
    destruct (isinstance_type h); cbn [negb].
    + intros [= <- _]. by left.
    + rewrite (getattr_eq _ _ _ _ H).
      destruct (d !! "exception_label"); [|done].
      by rewrite (getattr_eq _ _ _ _ H), Hh.
  - rewrite (getattr_eq _ _ _ _ H).
    destruct (d !! "hint_attr") as [a'|]; [|done].
    destruct (_TYPING_ATTR_TO_GETTER a') as [g'|] eqn:Hg.
    + intros [= <- _]. right. by exists a'.
    + rewrite (getattr_eq _ _ _ _ H).
      destruct (d !! "exception_label"); [|done].
      rewrite (getattr_eq _ _ _ _ H).
      by destruct (d !! "hint").
Qed.

Lemma supported_or_not hint_attr hint :
  (unsupported_nonpep hint_attr hint ∨ unsupported_pep hint_attr) ∨
  ∃ g, selects hint_attr hint g.
Proof.
  unfold unsupported_nonpep, unsupported_pep, selects.
  destruct (is_None hint_attr) eqn:Ha.
  - apply is_None_true in Ha as ->.
    destruct (isinstance_type hint); [right|left]; eauto 6.
  - apply is_None_false in Ha.
    destruct (_TYPING_ATTR_TO_GETTER hint_attr) as [g|]; [right|left];
      eauto 6.
Qed.

Lemma selects_supported hint_attr hint g :
  selects hint_attr hint g →
  ¬ (unsupported_nonpep hint_attr hint ∨ unsupported_pep hint_attr).
Proof.
  unfold unsupported_nonpep, unsupported_pep, selects.
  intros [(-> & Hh & _)|(Ha & Hg)] [[? ?]|[? ?]]; congruence.
Qed.

(** What [get_cause_or_none] does on a sleuth with its attributes. *)
Lemma get_cause_or_none_selected σ self d hint_attr hint label g :
  σ !! self = Some d →
  d !! "hint_attr" = Some hint_attr →
  d !! "hint" = Some hint →
  d !! "exception_label" = Some label →
  selects hint_attr hint g →
  select_getter self σ = Some (Ret g, σ) ∧
  get_cause_or_none self σ = g self σ.
Proof.
  intros H Ha Hh Hl Hsel.
  assert (Hs : select_getter self σ = Some (Ret g, σ)).
  { rewrite (select_getter_eq _ _ _ _ _ _ H Ha Hh Hl).
    destruct Hsel as [(-> & Hc & ->)|(Hn & Hg)].
    - cbn. by rewrite Hc.
    - apply is_None_false in Hn. by rewrite Hn, Hg. }
  split; [done|]. unfold get_cause_or_none, bind. by rewrite Hs.
Qed.

Lemma get_cause_or_none_unsupported σ self d hint_attr hint label :
  σ !! self = Some d →
  d !! "hint_attr" = Some hint_attr →
  d !! "hint" = Some hint →
  d !! "exception_label" = Some label →
  unsupported_nonpep hint_attr hint ∨ unsupported_pep hint_attr →
  get_cause_or_none self σ =
    Some (Raise (_BeartypeUtilRaisePepException
                   (if is_None hint_attr
                    then msg_unsupported_nonpep label hint
                    else msg_unsupported_pep label hint)), σ).
Proof.
  intros H Ha Hh Hl Hun. unfold get_cause_or_none, bind.
  rewrite (select_getter_eq _ _ _ _ _ _ H Ha Hh Hl).
  destruct Hun as [[-> Hc]|[Hn Hg]].
  - cbn. by rewrite Hc.
  - apply is_None_false in Hn. by rewrite Hn, Hg.
Qed.

End Dispatch.

Section DispatchClaims.
Context {B : Builtins} {G : Getters}.
Implicit Types (σ : heap) (d : instance) (self : loc).

(** In terms of the category stored in the sleuth, whether or not it is
    that of the current hint: the outcome of [get_cause_or_none] is that
    of the getter selected by the stored category, called with the sleuth
    itself; the result, a string or [None], and the store are passed on as
    they are. *)
Lemma get_cause_or_none_verbatim σ self d hint_attr hint label :
  σ !! self = Some d →
  d !! "hint_attr" = Some hint_attr →
  d !! "hint" = Some hint →
  d !! "exception_label" = Some label →
  (∀ g, selects hint_attr hint g →
        get_cause_or_none self σ = g self σ) ∧
  (∀ v σ', get_cause_or_none self σ = Some (Ret v, σ') →
           ∃ g, selects hint_attr hint g ∧
                g self σ = Some (Ret v, σ')).
Proof.
  intros H Ha Hh Hl. split.
  - intros g Hsel.
    by destruct (get_cause_or_none_selected _ _ _ _ _ _ _ H Ha Hh Hl Hsel).
  - intros v σ' Hv.
    destruct (supported_or_not hint_attr hint) as [Hun|[g Hsel]].
    + by rewrite (get_cause_or_none_unsupported _ _ _ _ _ _ H Ha Hh Hl Hun)
        in Hv.
    + exists g. split; [done|].
      by destruct (get_cause_or_none_selected _ _ _ _ _ _ _ H Ha Hh Hl Hsel)
        as [_ <-].
Qed.

(** C5: the two unsupported-hint paths of [get_cause_or_none] raise the
    same kind of error, and in both the message holds the error label,
    verbatim when it is a string, and the representation of the hint. *)
Theorem unsupported_hint_message σ self d hint_attr hint label :
  σ !! self = Some d →
  d !! "hint_attr" = Some hint_attr →
  d !! "hint" = Some hint →
  d !! "exception_label" = Some label →
  unsupported_nonpep hint_attr hint ∨ unsupported_pep hint_attr →
  ∃ msg,
    get_cause_or_none self σ =
      Some (Raise (_BeartypeUtilRaisePepException msg), σ) ∧
    embeds (fmt label) msg ∧
    (∀ s, label = PyStr s → embeds s msg) ∧
    embeds (repr hint) msg.
Proof.
  intros H Ha Hh Hl Hun.
  rewrite (get_cause_or_none_unsupported _ _ _ _ _ _ H Ha Hh Hl Hun).
  eexists. split; [done|].
  unfold msg_unsupported_nonpep, msg_unsupported_pep.
  destruct (is_None hint_attr); (split; [apply embeds_head|]);
    (split; [intros s ->; apply embeds_head|apply embeds_third]).
Qed.

End DispatchClaims.

(** ** Runs that agree *)

Section Agree.
Context {A : Type}.
Implicit Types (σ : heap) (d : instance) (x y : option (outcome A * heap)).

Lemma agree_weaken x y σ1 σ2 σ1' σ2' :
  σ1 `prefix_of` σ1' → σ2 `prefix_of` σ2' →
  agree x y σ1' σ2' → agree x y σ1 σ2.
Proof.
  intros H1 H2. unfold agree.
  destruct x as [[r1 τ1]|], y as [[r2 τ2]|]; try done.
  intros (-> & P1 & P2). repeat split; by etrans.
Qed.

Lemma agree_ret (a : A) σ1 σ2 : agree (ret a σ1) (ret a σ2) σ1 σ2.
Proof. by repeat split. Qed.

Lemma agree_raise (e : exn) σ1 σ2 :
  agree (raise (A:=A) e σ1) (raise e σ2) σ1 σ2.
Proof. by repeat split. Qed.

(** The store a run was started in is still there when it ends. *)
Lemma agree_frame x σ σ' r d (s : loc) :
  agree x x σ σ → x = Some (r, σ') → σ !! s = Some d → σ' !! s = Some d.
Proof.
  intros Hag -> Hs. destruct Hag as (_ & Hp & _).
  by eapply prefix_lookup_Some.
Qed.

End Agree.

Lemma agree_bind {A B} (m1 m2 : M A) (k1 k2 : A → M B) (σ1 σ2 : heap) :
  agree (m1 σ1) (m2 σ2) σ1 σ2 →
  (∀ a σ1' σ2', m1 σ1 = Some (Ret a, σ1') → m2 σ2 = Some (Ret a, σ2') →
                agree (k1 a σ1') (k2 a σ2') σ1' σ2') →
  agree (bind m1 k1 σ1) (bind m2 k2 σ2) σ1 σ2.
Proof.
  intros Hm Hk. unfold bind.
  destruct (m1 σ1) as [[[a1|e1] τ1]|], (m2 σ2) as [[[a2|e2] τ2]|];
    try done; try (by destruct Hm as ([=] & _)).
  - destruct Hm as ([= <-] & P1 & P2).
    eapply agree_weaken; [done..|]. by apply Hk.
  - destruct Hm as ([= <-] & P1 & P2). by repeat split.
Qed.

Lemma agree_bind_getattr {B} (name : string) (k1 k2 : pyobj → M B)
    (σ1 σ2 : heap) (s1 s2 : loc) (d : instance) :
  σ1 !! s1 = Some d → σ2 !! s2 = Some d →
  (∀ v, d !! name = Some v → agree (k1 v σ1) (k2 v σ2) σ1 σ2) →
  agree (bind (getattr s1 name) k1 σ1) (bind (getattr s2 name) k2 σ2) σ1 σ2.
Proof.
  intros H1 H2 Hk. unfold bind.
  rewrite (getattr_eq _ _ _ _ H1), (getattr_eq _ _ _ _ H2).
  destruct (d !! name) as [v|]; [by apply Hk|by repeat split].
Qed.

Lemma agree_bind_permute {B} (kwargs : list (string * pyobj))
    (k1 k2 : loc → M B) (σ1 σ2 : heap) (s1 s2 : loc) (d : instance) :
  σ1 !! s1 = Some d → σ2 !! s2 = Some d →
  agree (k1 (length σ1) (σ1 ++ [overwrite kwargs d]))
        (k2 (length σ2) (σ2 ++ [overwrite kwargs d]))
        (σ1 ++ [overwrite kwargs d]) (σ2 ++ [overwrite kwargs d]) →
  agree (bind (permute s1 kwargs) k1 σ1) (bind (permute s2 kwargs) k2 σ2)
        σ1 σ2.
Proof.
  intros H1 H2 Hk. unfold bind.
  rewrite (permute_eq _ _ _ _ H1), (permute_eq _ _ _ _ H2).
  eapply agree_weaken; [| |exact Hk]; by apply prefix_app_r.
Qed.

Lemma is_Some_bind_getattr {B} (name : string) (k : pyobj → M B)
    (σ : heap) (s : loc) (d : instance) :
  σ !! s = Some d →
  (∀ v, d !! name = Some v → is_Some (k v σ)) →
  is_Some (bind (getattr s name) k σ).
Proof.
  intros H Hk. unfold bind. rewrite (getattr_eq _ _ _ _ H).
  destruct (d !! name) as [v|]; [by apply Hk|by eexists].
Qed.

(** ** The explainers are pure *)

Section ExplainersPure.
Context {B : Builtins}.
Implicit Types (σ : heap) (d : instance) (rec : getter).

Lemma get_cause_or_none_plain_class_pure :
  pure_getter get_cause_or_none_plain_class.
Proof.
  intros σ1 σ2 s1 s2 d H1 H2. unfold get_cause_or_none_plain_class.
  eapply agree_bind_getattr; [done..|]. intros pith _.
  eapply agree_bind_getattr; [done..|]. intros hint _.
  destruct (type_matches pith hint); apply agree_ret.
Qed.

(** A pure getter leaves the sleuths of its store in place. *)
Lemma pure_getter_frame rec σ σ' (s c : loc) (r : outcome pyobj) d dc :
  pure_getter rec → σ !! c = Some dc → rec c σ = Some (r, σ') →
  σ !! s = Some d → σ' !! s = Some d.
Proof.
  intros Hrec Hc Hrun Hs.
  eapply (agree_frame (rec c σ)); [by eapply Hrec|done..].
Qed.

Lemma first_cause_pure rec (steps : list step) :
  pure_getter rec →
  ∀ σ1 σ2 (s1 s2 : loc) d,
    σ1 !! s1 = Some d → σ2 !! s2 = Some d →
    agree (first_cause rec s1 steps σ1) (first_cause rec s2 steps σ2)
          σ1 σ2.
Proof.
  intros Hrec. induction steps as [|[position kwargs] steps IH];
    intros σ1 σ2 s1 s2 d H1 H2; [apply agree_ret|].
  cbn [first_cause].
  eapply agree_bind_permute; [done..|].
  apply agree_bind; [eapply Hrec; apply lookup_new|].
  intros cause τ1 τ2 E1 E2.
  assert (τ1 !! s1 = Some d) as T1.
  { eapply pure_getter_frame; [done|apply lookup_new|done|].
    by apply lookup_old. }
  assert (τ2 !! s2 = Some d) as T2.
  { eapply pure_getter_frame; [done|apply lookup_new|done|].
    by apply lookup_old. }
  destruct (is_None cause); [by apply (IH _ _ _ _ d)|].
  eapply agree_bind_getattr; [done..|]. intros indent _. apply agree_ret.
Qed.

Lemma get_cause_or_none_union_pure rec :
  pure_getter rec → pure_getter (get_cause_or_none_union rec).
Proof.
  intros Hrec σ1 σ2 s1 s2 d H1 H2. unfold get_cause_or_none_union.
  eapply agree_bind_getattr; [done..|]. intros hint _.
  by apply (first_cause_pure _ _ Hrec _ _ _ _ d).
Qed.

Lemma get_cause_or_none_sequence_standard_pure rec :
  pure_getter rec → pure_getter (get_cause_or_none_sequence_standard rec).
Proof.
  intros Hrec σ1 σ2 s1 s2 d H1 H2.
  unfold get_cause_or_none_sequence_standard.
  eapply agree_bind_getattr; [done..|]. intros pith _.
  eapply agree_bind_getattr; [done..|]. intros hint _.
  destruct (hint_childs hint); [apply agree_ret|].
  by apply (first_cause_pure _ _ Hrec _ _ _ _ d).
Qed.

Lemma get_cause_or_none_tuple_pure rec :
  pure_getter rec → pure_getter (get_cause_or_none_tuple rec).
Proof.
  intros Hrec σ1 σ2 s1 s2 d H1 H2. unfold get_cause_or_none_tuple.
  eapply agree_bind_getattr; [done..|]. intros pith _.
  eapply agree_bind_getattr; [done..|]. intros hint _.
  by apply (first_cause_pure _ _ Hrec _ _ _ _ d).
Qed.

Lemma get_cause_or_none_mapping_pure rec :
  pure_getter rec → pure_getter (get_cause_or_none_mapping rec).
Proof.
  intros Hrec σ1 σ2 s1 s2 d H1 H2. unfold get_cause_or_none_mapping.
  eapply agree_bind_getattr; [done..|]. intros pith _.
  eapply agree_bind_getattr; [done..|]. intros hint _.
  destruct (hint_childs hint) as [|hint_key [|hint_value ?]];
    try apply agree_ret.
  by apply (first_cause_pure _ _ Hrec _ _ _ _ d).
Qed.

Lemma get_cause_or_none_generic_pure rec :
  pure_getter rec → pure_getter (get_cause_or_none_generic rec).
Proof.
  intros Hrec σ1 σ2 s1 s2 d H1 H2. unfold get_cause_or_none_generic.
  eapply agree_bind_getattr; [done..|]. intros pith _.
  eapply agree_bind_getattr; [done..|]. intros hint _.
  destruct (hint_childs hint) as [|origin args]; [apply agree_ret|].
  eapply agree_bind_permute; [done..|].
  apply agree_bind.
  { eapply get_cause_or_none_plain_class_pure; apply lookup_new. }
  intros cause τ1 τ2 E1 E2.
  destruct (is_None cause); [|apply agree_ret].
  destruct args as [|child ?]; [apply agree_ret|].
  apply (first_cause_pure _ _ Hrec _ _ _ _ d).
  - eapply pure_getter_frame;
      [apply get_cause_or_none_plain_class_pure|apply lookup_new|done|].
    by apply lookup_old.
  - eapply pure_getter_frame;
      [apply get_cause_or_none_plain_class_pure|apply lookup_new|done|].
    by apply lookup_old.
Qed.

Lemma spec_table_cases rec (attr : pyobj) (g : getter) :
  spec_table rec attr = Some g →
  g = get_cause_or_none_union rec ∨
  g = get_cause_or_none_sequence_standard rec ∨
  g = get_cause_or_none_tuple rec ∨
  g = get_cause_or_none_mapping rec ∨
  g = get_cause_or_none_generic rec.
Proof.
  unfold spec_table. destruct attr as [| | | |name [|? ?]| | | |]; try done.
  repeat (case_match; [intros [= <-]; tauto|]). done.
Qed.

Lemma spec_table_pure rec (attr : pyobj) (g : getter) :
  pure_getter rec → spec_table rec attr = Some g → pure_getter g.
Proof.
  intros Hrec Hg.
  destruct (spec_table_cases _ _ _ Hg) as [->|[->|[->|[->| ->]]]];
    auto using get_cause_or_none_union_pure,
      get_cause_or_none_sequence_standard_pure,
      get_cause_or_none_tuple_pure, get_cause_or_none_mapping_pure,
      get_cause_or_none_generic_pure.
Qed.

End ExplainersPure.

(** ** Idempotence *)

Section Idempotence.
Context {B : Builtins} {G : Getters}.
Implicit Types (σ : heap) (d : instance) (self : loc).

(** The getter that is selected is a function of the [__dict__] of the
    sleuth alone. *)
Lemma select_getter_dict d :
  ∃ r, ∀ σ self, σ !! self = Some d → select_getter self σ = Some (r, σ).
Proof.
  destruct (d !! "hint_attr") as [a|] eqn:Ha; cycle 1.
  { eexists. intros σ self H. unfold select_getter, bind.
    by rewrite (getattr_eq _ _ _ _ H), Ha. }
  destruct (d !! "hint") as [h|] eqn:Hh,
           (d !! "exception_label") as [l|] eqn:Hl;
    destruct (is_None a) eqn:Hn;
    try destruct (isinstance_type h) eqn:Hc;
    destruct (_TYPING_ATTR_TO_GETTER a) eqn:Hg;
    eexists; intros σ self H; unfold select_getter, bind;
    rewrite (getattr_eq _ _ _ _ H), Ha, Hn;
    rewrite (getattr_eq _ _ _ _ H), ?Ha, ?Hh, ?Hg, ?Hc; cbn [negb];
    rewrite ?(getattr_eq _ _ _ _ H), ?Hl;
    rewrite ?(getattr_eq _ _ _ _ H), ?Hh; reflexivity.
Qed.

(** With pure getters, [get_cause_or_none] is pure. *)
Lemma get_cause_or_none_pure :
  (∀ g, g = get_cause_or_none_type ∨
        (∃ a, _TYPING_ATTR_TO_GETTER a = Some g) → pure_getter g) →
  pure_getter get_cause_or_none.
Proof.
  intros Hpure σ1 σ2 s1 s2 d H1 H2.
  destruct (select_getter_dict d) as [r Hr].
  unfold get_cause_or_none, bind. rewrite (Hr _ _ H1), (Hr _ _ H2).
  destruct r as [g|e]; [|by repeat split].
  refine (Hpure g _ _ _ _ _ _ H1 H2).
  by eapply select_getter_Ret, (Hr _ _ H1).
Qed.

(** C6: two calls of [get_cause_or_none] on the same sleuth, left as it
    is in between, have the same outcome, a value or an error, and
    neither call changes an attribute of the sleuth.  The getters are
    taken to be pure, as the specification describes them. *)
Theorem get_cause_or_none_idempotent σ self d (r : outcome pyobj) σ1 :
  (∀ g, g = get_cause_or_none_type ∨
        (∃ a, _TYPING_ATTR_TO_GETTER a = Some g) → pure_getter g) →
  σ !! self = Some d →
  get_cause_or_none self σ = Some (r, σ1) →
  σ1 !! self = Some d ∧
  ∃ σ2, get_cause_or_none self σ1 = Some (r, σ2) ∧
        σ2 !! self = Some d.
Proof.
  intros Hpure H Hrun.
  pose proof (get_cause_or_none_pure Hpure) as Hp.
  assert (H1 : σ1 !! self = Some d).
  { by eapply (pure_getter_frame get_cause_or_none σ σ1 self self). }
  split; [done|].
  pose proof (Hp σ σ1 self self d H H1) as Hag.
  rewrite Hrun in Hag. unfold agree in Hag.
  destruct (get_cause_or_none self σ1) as [[r2 σ2]|] eqn:Hrun2; [|done].
  destruct Hag as (-> & _ & Hpre). exists σ2. split; [done|].
  by eapply prefix_lookup_Some.
Qed.

End Idempotence.

(** ** Termination *)

(** A child hint is nested less deep than its parent. *)
Lemma hint_depth_child (attr : string) (args : list pyobj) (c : pyobj) :
  c ∈ args → hint_depth c < hint_depth (PyTyping attr args).
Proof.
  intros Hc. cbn [hint_depth]. apply Nat.lt_succ_r.
  induction args as [|a args IH]; [by apply elem_of_nil in Hc|].
  cbn [map list_max fold_right]. apply elem_of_cons in Hc as [->|Hc].
  - apply Nat.le_max_l.
  - etrans; [by apply IH|]. apply Nat.le_max_r.
Qed.

Lemma hint_childs_depth (hint c : pyobj) :
  c ∈ hint_childs hint → hint_depth c < hint_depth hint.
Proof.
  destruct hint; cbn [hint_childs];
    try (by intros ?%elem_of_nil). apply hint_depth_child.
Qed.

Lemma depth_of_hint (d : instance) (hint : pyobj) :
  d !! "hint" = Some hint → depth_of d = hint_depth hint.
Proof. intros H. unfold depth_of. by rewrite H. Qed.

Lemma depth_of_permute_hint (d : instance) (c : pyobj) :
  depth_of (overwrite [("hint", c)] d) = hint_depth c.
Proof. apply depth_of_hint, lookup_insert_eq. Qed.

Lemma depth_of_item_step (d : instance) (item c : pyobj) :
  depth_of (overwrite [("pith", item); ("hint", c)] d) = hint_depth c.
Proof. apply depth_of_hint, lookup_insert_eq. Qed.

Section ExplainersTerminate.
Context {B : Builtins}.
Implicit Types (σ : heap) (d : instance) (rec : getter).

Lemma get_cause_or_none_plain_class_terminates σ (s : loc) d :
  σ !! s = Some d → is_Some (get_cause_or_none_plain_class s σ).
Proof.
  intros H. unfold get_cause_or_none_plain_class.
  eapply is_Some_bind_getattr; [done|]. intros pith _.
  eapply is_Some_bind_getattr; [done|]. intros hint _.
  by destruct (type_matches pith hint).
Qed.

(** The descent has an outcome when every child it reaches has a hint
    less deep than the budget of the recursive call. *)
Lemma first_cause_terminates rec (n : nat) (steps : list step) :
  pure_getter rec → terminating_below n rec →
  ∀ σ (s : loc) d,
    σ !! s = Some d →
    Forall (λ st : step, depth_of (overwrite st.2 d) < n) steps →
    is_Some (first_cause rec s steps σ).
Proof.
  intros Hpure Hrec. induction steps as [|[position kwargs] steps IH];
    intros σ s d H Hsteps; [done|].
  apply Forall_cons in Hsteps as [Hstep Hsteps]. cbn [snd] in Hstep.
  cbn [first_cause]. unfold bind at 1. rewrite (permute_eq _ _ _ _ H).
  unfold bind at 1.
  destruct (Hrec (σ ++ [overwrite kwargs d]) (length σ) _
              (lookup_new _ _) Hstep) as [[r τ] Hrun].
  rewrite Hrun. destruct r as [cause|e]; [|done].
  assert (τ !! s = Some d) as T.
  { eapply pure_getter_frame; [done|apply lookup_new|done|].
    by apply lookup_old. }
  destruct (is_None cause); [by apply (IH _ _ d)|].
  eapply is_Some_bind_getattr; [done|]. by intros.
Qed.

Lemma item_steps_descend (items : list pyobj) (child : pyobj) d (n : nat) :
  hint_depth child < n →
  Forall (λ st : step, depth_of (overwrite st.2 d) < n)
         (item_steps items child).
Proof.
  intros Hc. apply Forall_forall. intros st Hst.
  apply elem_of_lookup_imap in Hst as (i & item & -> & _).
  cbn [snd]. by rewrite depth_of_item_step.
Qed.

Lemma get_cause_or_none_union_terminates rec (n : nat) :
  pure_getter rec → terminating_below n rec →
  terminating_below (S n) (get_cause_or_none_union rec).
Proof.
  intros Hpure Hrec σ s d H Hd. unfold get_cause_or_none_union.
  eapply is_Some_bind_getattr; [done|]. intros hint Hh.
  rewrite (depth_of_hint _ _ Hh) in Hd.
  eapply first_cause_terminates; [done..|].
  apply Forall_forall. intros st Hst.
  apply list_elem_of_In, in_map_iff in Hst as (member & <- & Hm).
  cbn [snd]. rewrite depth_of_permute_hint.
  apply list_elem_of_In, hint_childs_depth in Hm. lia.
Qed.

Lemma get_cause_or_none_sequence_standard_terminates rec (n : nat) :
  pure_getter rec → terminating_below n rec →
  terminating_below (S n) (get_cause_or_none_sequence_standard rec).
Proof.
  intros Hpure Hrec σ s d H Hd.
  unfold get_cause_or_none_sequence_standard.
  eapply is_Some_bind_getattr; [done|]. intros pith _.
  eapply is_Some_bind_getattr; [done|]. intros hint Hh.
  rewrite (depth_of_hint _ _ Hh) in Hd.
  destruct (hint_childs hint) as [|child ?] eqn:Hc; [done|].
  eapply first_cause_terminates; [done..|].
  apply item_steps_descend.
  assert (hint_depth child < hint_depth hint); [|lia].
  apply hint_childs_depth. rewrite Hc. by apply elem_of_cons; left.
Qed.

Lemma get_cause_or_none_tuple_terminates rec (n : nat) :
  pure_getter rec → terminating_below n rec →
  terminating_below (S n) (get_cause_or_none_tuple rec).
Proof.
  intros Hpure Hrec σ s d H Hd. unfold get_cause_or_none_tuple.
  eapply is_Some_bind_getattr; [done|]. intros pith _.
  eapply is_Some_bind_getattr; [done|]. intros hint Hh.
  rewrite (depth_of_hint _ _ Hh) in Hd.
  eapply first_cause_terminates; [done..|].
  apply Forall_forall. intros st Hst.
  apply elem_of_lookup_imap in Hst as (i & [item child] & -> & Hi).
  cbn [fst snd]. rewrite depth_of_item_step.
  apply list_elem_of_lookup_2, elem_of_zip_r, hint_childs_depth in Hi.
  lia.
Qed.

Lemma get_cause_or_none_mapping_terminates rec (n : nat) :
  pure_getter rec → terminating_below n rec →
  terminating_below (S n) (get_cause_or_none_mapping rec).
Proof.
  intros Hpure Hrec σ s d H Hd. unfold get_cause_or_none_mapping.
  eapply is_Some_bind_getattr; [done|]. intros pith _.
  eapply is_Some_bind_getattr; [done|]. intros hint Hh.
  rewrite (depth_of_hint _ _ Hh) in Hd.
  destruct (hint_childs hint) as [|hint_key [|hint_value ?]] eqn:Hc;
    [done..|].
  assert (hint_depth hint_key < n ∧ hint_depth hint_value < n) as [Hk Hv].
  { assert (∀ c, c ∈ hint_childs hint → hint_depth c < n) as Hchild.
    { intros c Hin. apply hint_childs_depth in Hin. lia. }
    split; apply Hchild; rewrite Hc, !elem_of_cons; auto. }
  eapply first_cause_terminates; [done..|].
  apply Forall_forall. intros st Hst.
  apply list_elem_of_In, in_flat_map in Hst as (kv & _ & Hst).
  destruct Hst as [<-|[<-|[]]]; cbn [snd];
    by rewrite depth_of_item_step.
Qed.

Lemma get_cause_or_none_generic_terminates rec (n : nat) :
  pure_getter rec → terminating_below n rec →
  terminating_below (S n) (get_cause_or_none_generic rec).
Proof.
  intros Hpure Hrec σ s d H Hd. unfold get_cause_or_none_generic.
  eapply is_Some_bind_getattr; [done|]. intros pith _.
  eapply is_Some_bind_getattr; [done|]. intros hint Hh.
  rewrite (depth_of_hint _ _ Hh) in Hd.
  destruct (hint_childs hint) as [|origin args] eqn:Hc; [done|].
  unfold bind at 1. rewrite (permute_eq _ _ _ _ H). unfold bind at 1.
  destruct (get_cause_or_none_plain_class_terminates
              (σ ++ [overwrite [("hint", origin)] d]) (length σ) _
              (lookup_new _ _)) as [[r τ] Hrun].
  rewrite Hrun. destruct r as [cause|e]; [|done].
  destruct (is_None cause); [|done].
  destruct args as [|child ?]; [done|].
  eapply first_cause_terminates; [done..| |].
  - eapply pure_getter_frame;
      [apply get_cause_or_none_plain_class_pure|apply lookup_new|done|].
    by apply lookup_old.
  - apply item_steps_descend.
    assert (hint_depth child < hint_depth hint); [|lia].
    apply hint_childs_depth. rewrite Hc.
    apply elem_of_cons; right. by apply elem_of_cons; left.
Qed.

Lemma spec_table_terminates rec (n : nat) (attr : pyobj) (g : getter) :
  pure_getter rec → terminating_below n rec →
  spec_table rec attr = Some g → terminating_below (S n) g.
Proof.
  intros Hpure Hrec Hg.
  destruct (spec_table_cases _ _ _ Hg) as [->|[->|[->|[->| ->]]]];
    auto using get_cause_or_none_union_terminates,
      get_cause_or_none_sequence_standard_terminates,
      get_cause_or_none_tuple_terminates,
      get_cause_or_none_mapping_terminates,
      get_cause_or_none_generic_terminates.
Qed.

(** The sleuth with the explainers of the specification is pure and,
    with a budget of [n] nested calls, has an outcome on every hint
    nested less than [n] levels deep. *)
Lemma get_cause_or_none_fuel_good (n : nat) :
  pure_getter (get_cause_or_none_fuel n) ∧
  terminating_below n (get_cause_or_none_fuel n).
Proof.
  induction n as [|n [IHp IHt]].
  - split; [by intros ???????|]. intros σ s d _ Hd. lia.
  - split.
    + cbn [get_cause_or_none_fuel]. apply get_cause_or_none_pure.
      intros g [->|[a Ha]].
      * apply get_cause_or_none_plain_class_pure.
      * exact (spec_table_pure (get_cause_or_none_fuel n) a g IHp Ha).
    + intros σ s d H Hd. cbn [get_cause_or_none_fuel].
      unfold get_cause_or_none, bind.
      destruct (select_getter_total
                  (G:=spec_getters (get_cause_or_none_fuel n)) σ s d H)
        as [[g|e] Hsel];
        rewrite Hsel; [|done].
      apply select_getter_Ret in Hsel as [->|[a Ha]].
      * by eapply get_cause_or_none_plain_class_terminates.
      * exact (spec_table_terminates (get_cause_or_none_fuel n) n a g
                 IHp IHt Ha σ s d H Hd).
Qed.

End ExplainersTerminate.

(** The getters of the specification are pure at every budget. *)
Lemma spec_getters_pure {B : Builtins} (n : nat) (g : getter) :
  g = get_cause_or_none_plain_class ∨
  (∃ a, spec_table (get_cause_or_none_fuel n) a = Some g) →
  pure_getter g.
Proof.
  intros [->|[a Ha]]; [apply get_cause_or_none_plain_class_pure|].
  eapply spec_table_pure; [|exact Ha]. apply get_cause_or_none_fuel_good.
Qed.



(** ** The claims on dispatch, at an example *)

Lemma get_cause_or_none_verbatim_witness :
  let B := example_builtins in
  let G := example_getters in
  let hint_attr := PyTyping "List" [] in
  let hint := PyTyping "List" [PyClass "int"] in
  ([example_sleuth] !! 0 = Some example_sleuth ∧
   example_sleuth !! "hint_attr" = Some hint_attr ∧
   example_sleuth !! "hint" = Some hint) ∧
  (∀ g, selects hint_attr hint g →
        get_cause_or_none 0 [example_sleuth] = g 0 [example_sleuth]) ∧
  (∀ v σ', get_cause_or_none 0 [example_sleuth] = Some (Ret v, σ') →
           ∃ g, selects hint_attr hint g ∧
                g 0 [example_sleuth] = Some (Ret v, σ')).
Proof.
  cbn zeta. split; [repeat split|].
  apply (@get_cause_or_none_verbatim example_builtins example_getters
           [example_sleuth] 0 example_sleuth (PyTyping "List" [])
           (PyTyping "List" [PyClass "int"]) (PyStr "List of integers"));
    reflexivity.
Defined.

Lemma unsupported_hint_message_witness :
  let B := example_builtins in
  let G := example_getters in
  let hint := PyTuple [PyClass "int"; PyClass "str"] in
  ([example_unsupported] !! 0 = Some example_unsupported ∧
   unsupported_nonpep PyNone hint) ∧
  ∃ msg,
    get_cause_or_none 0 [example_unsupported] =
      Some (Raise (_BeartypeUtilRaisePepException msg),
            [example_unsupported]) ∧
    embeds (fmt (PyStr "Parameter x")) msg ∧
    (∀ s, PyStr "Parameter x" = PyStr s → embeds s msg) ∧
    embeds (repr hint) msg.
Proof.
  cbn zeta. split; [repeat split|].
  apply (@unsupported_hint_message example_builtins example_getters
           [example_unsupported] 0 example_unsupported PyNone
           (PyTuple [PyClass "int"; PyClass "str"]) (PyStr "Parameter x"));
    try reflexivity.
  left. split; reflexivity.
Defined.

Lemma get_cause_or_none_idempotent_witness :
  let B := example_builtins in
  let G := example_getters in
  ∃ r σ1,
    ([example_sleuth] !! 0 = Some example_sleuth ∧
     get_cause_or_none 0 [example_sleuth] = Some (r, σ1)) ∧
    σ1 !! 0 = Some example_sleuth ∧
    ∃ σ2, get_cause_or_none 0 σ1 = Some (r, σ2) ∧
          σ2 !! 0 = Some example_sleuth.
Proof.
  cbn zeta.
  assert (∃ r σ1, @get_cause_or_none example_builtins example_getters
                    0 [example_sleuth] = Some (r, σ1)) as (r & σ1 & Hrun).
  { eexists _, _. vm_compute. reflexivity. }
  exists r, σ1. split; [split; [reflexivity|exact Hrun]|].
  apply (@get_cause_or_none_idempotent example_builtins example_getters
           [example_sleuth] 0 example_sleuth r σ1);
    [apply (@spec_getters_pure example_builtins 2)|reflexivity|exact Hrun].
Defined.

(** * Further properties of the sleuth *)

(** ** Keywords of [permute] *)


Lemma overwrite_app (kw1 kw2 : list (string * pyobj)) (d : instance) :
  overwrite (kw1 ++ kw2) d = overwrite kw2 (overwrite kw1 d).
Proof. apply fold_left_app. Qed.



(** X2: the copy that [permute] returns has a [__dict__] of its own.
    Setting an attribute of the copy afterwards leaves the parent as it
    was, and setting an attribute of the parent leaves the copy as it
    was. *)
Theorem permute_copy_independent (σ : heap) (self : loc) (d : instance)
    (kwargs : list (string * pyobj)) (name : string) (v : pyobj) :
  σ !! self = Some d →
  ∃ copy σ1 d1,
    permute self kwargs σ = Some (Ret copy, σ1) ∧
    σ1 !! copy = Some d1 ∧
    (∃ σ2, setattr copy name v σ1 = Some (Ret tt, σ2) ∧
           σ2 !! self = Some d ∧
           σ2 !! copy = Some (<[name := v]> d1)) ∧
    (∃ σ2, setattr self name v σ1 = Some (Ret tt, σ2) ∧
           σ2 !! self = Some (<[name := v]> d) ∧
           σ2 !! copy = Some d1).
Proof.
  intros H. pose proof (allocated_lt _ _ _ H) as Hlt.
  exists (length σ), (σ ++ [overwrite kwargs d]), (overwrite kwargs d).
  split; [by apply permute_eq|]. split; [apply lookup_new|]. split.
  - eexists. split; [apply setattr_new|]. split.
    + by apply lookup_old.
    + apply lookup_new.
  - eexists. split; [by apply setattr_eq, lookup_old|]. split.
    + apply list_lookup_insert_eq. rewrite length_app. lia.
    + rewrite list_lookup_insert_ne by lia. apply lookup_new.
Qed.

Lemma permute_copy_independent_witness :
  [example_sleuth] !! 0 = Some example_sleuth ∧
  ∃ copy σ1 d1,
    permute 0 [("pith", PyInt 1)] [example_sleuth] = Some (Ret copy, σ1) ∧
    σ1 !! copy = Some d1 ∧
    (∃ σ2, setattr copy "hint" PyNone σ1 = Some (Ret tt, σ2) ∧
           σ2 !! 0 = Some example_sleuth ∧
           σ2 !! copy = Some (<["hint" := PyNone]> d1)) ∧
    (∃ σ2, setattr 0 "hint" PyNone σ1 = Some (Ret tt, σ2) ∧
           σ2 !! 0 = Some (<["hint" := PyNone]> example_sleuth) ∧
           σ2 !! copy = Some d1).
Proof.
  split; [reflexivity|].
  apply (permute_copy_independent [example_sleuth] 0 example_sleuth
           [("pith", PyInt 1)] "hint" PyNone).
  reflexivity.
Defined.

(** X3: two calls of [permute] in a row give a sleuth with the same
    attributes as one call with the keywords of the first followed by
    those of the second. *)
Theorem permute_compose (σ : heap) (self : loc) (d : instance)
    (kw1 kw2 : list (string * pyobj)) :
  σ !! self = Some d →
  ∃ c1 σ1 c2 σ2 c σ',
    permute self kw1 σ = Some (Ret c1, σ1) ∧
    permute c1 kw2 σ1 = Some (Ret c2, σ2) ∧
    permute self (kw1 ++ kw2) σ = Some (Ret c, σ') ∧
    is_Some (σ' !! c) ∧
    σ2 !! c2 = σ' !! c.
Proof.
  intros H. eexists _, _, _, _, _, _.
  split; [by apply permute_eq|].
  split; [apply permute_eq, lookup_new|].
  split; [by apply permute_eq|].
  rewrite !lookup_new. split; [by eexists|].
  by rewrite overwrite_app.
Qed.

Lemma permute_compose_witness :
  let kw1 := [("pith", PyInt 1)] in
  let kw2 := [("hint", PyClass "int"); ("pith", PyInt 2)] in
  [example_sleuth] !! 0 = Some example_sleuth ∧
  ∃ c1 σ1 c2 σ2 c σ',
    permute 0 kw1 [example_sleuth] = Some (Ret c1, σ1) ∧
    permute c1 kw2 σ1 = Some (Ret c2, σ2) ∧
    permute 0 (kw1 ++ kw2) [example_sleuth] = Some (Ret c, σ') ∧
    is_Some (σ' !! c) ∧
    σ2 !! c2 = σ' !! c.
Proof.
  cbn zeta. split; [reflexivity|].
  apply (permute_compose [example_sleuth] 0 example_sleuth
           [("pith", PyInt 1)] [("hint", PyClass "int"); ("pith", PyInt 2)]).
  reflexivity.
Defined.

(** ** The instance variables are always there *)

Lemma has_fields_lookup (d : instance) :
  has_fields d ↔
  is_Some (d !! "pith") ∧ is_Some (d !! "hint") ∧
  is_Some (d !! "cause_indent") ∧ is_Some (d !! "exception_label") ∧
  is_Some (d !! "hint_attr").
Proof.
  unfold has_fields, sleuth_fields. split.
  - intros H. repeat split; apply H; rewrite !elem_of_cons; tauto.
  - intros (? & ? & ? & ? & ?) field Hf.
    rewrite !elem_of_cons in Hf.
    destruct Hf as [->|[->|[->|[->|[->|Hf]]]]]; try done.
    by apply elem_of_nil in Hf.
Qed.


Lemma example_sleuth_has_fields : has_fields example_sleuth.
Proof. apply has_fields_lookup. repeat split; by eexists. Qed.

Section Fields.
Context {B : Builtins} {C : HintClassifier}.
Implicit Types (σ : heap) (d : instance) (self : loc).


(** X6: the constructor checks the indentation before the error label
    and both before it sets an attribute: the message of the assertion
    names the indentation when it is not a string, the error label
    otherwise, and the instance that was being initialized is left with
    an empty [__dict__]. *)
Theorem CauseSleuth_assertion_order (pith hint ci el : pyobj) σ :
  (isinstance_str ci = false →
   CauseSleuth pith hint ci el σ =
     Some (Raise (AssertionError (repr ci +:+ " not string.")), σ ++ [∅])) ∧
  (isinstance_str ci = true → isinstance_str el = false →
   CauseSleuth pith hint ci el σ =
     Some (Raise (AssertionError (repr el +:+ " not string.")), σ ++ [∅])).
Proof.
  split.
  - intros Hci. unfold CauseSleuth, __init__, bind, alloc, assert_.
    by rewrite Hci.
  - intros Hci Hel. unfold CauseSleuth, __init__, bind, alloc, assert_.
    by rewrite Hci, Hel.
Qed.

(** X7: two sleuths built one after the other are two objects, and the
    second construction leaves the first sleuth as it was built. *)
Theorem CauseSleuth_independent (p1 h1 ci1 el1 p2 h2 ci2 el2 : pyobj) σ :
  isinstance_str ci1 = true → isinstance_str el1 = true →
  isinstance_str ci2 = true → isinstance_str el2 = true →
  ∃ s1 σ1 s2 σ2,
    CauseSleuth p1 h1 ci1 el1 σ = Some (Ret s1, σ1) ∧
    CauseSleuth p2 h2 ci2 el2 σ1 = Some (Ret s2, σ2) ∧
    s1 ≠ s2 ∧
    σ2 !! s1 = Some (sleuth_dict p1 h1 ci1 el1) ∧
    σ2 !! s2 = Some (sleuth_dict p2 h2 ci2 el2) ∧
    (∀ l o, σ !! l = Some o → σ2 !! l = Some o).
Proof.
  intros Hc1 He1 Hc2 He2. eexists _, _, _, _.
  split; [by apply CauseSleuth_eq|].
  split; [by apply CauseSleuth_eq|].
  split; [rewrite length_app; cbn; lia|].
  split; [apply lookup_old, lookup_new|].
  split; [apply lookup_new|].
  intros l o Hl. by do 2 apply lookup_old.
Qed.

End Fields.

Lemma CauseSleuth_independent_witness :
  let _ := example_builtins in
  let _ := spec_classifier in
  (isinstance_str (PyStr "  ") = true ∧ isinstance_str (PyStr "x") = true) ∧
  ∃ s1 σ1 s2 σ2,
    CauseSleuth (PyInt 1) (PyClass "int") (PyStr "  ") (PyStr "x") [] =
      Some (Ret s1, σ1) ∧
    CauseSleuth (PyStr "a") (PyClass "str") (PyStr "  ") (PyStr "x") σ1 =
      Some (Ret s2, σ2) ∧
    s1 ≠ s2 ∧
    σ2 !! s1 =
      Some (sleuth_dict (PyInt 1) (PyClass "int") (PyStr "  ") (PyStr "x")) ∧
    σ2 !! s2 =
      Some (sleuth_dict (PyStr "a") (PyClass "str") (PyStr "  ") (PyStr "x")) ∧
    (∀ l o, ([] : heap) !! l = Some o → σ2 !! l = Some o).
Proof.
  cbn zeta. split; [split; reflexivity|].
  apply (@CauseSleuth_independent example_builtins spec_classifier);
    reflexivity.
Defined.

(** ** Dispatch on sleuths with their instance variables *)

Section DispatchMore.
Context {B : Builtins} {G : Getters}.
Implicit Types (σ : heap) (d : instance) (self : loc).


(** X8: the dispatch reads the category, the hint and the error label
    only.  After a [permute] that overrides none of the three, whatever
    else it overrides, the copy selects the getter that the parent
    selects, or raises the error that the parent raises, message
    included. *)
Theorem dispatch_unchanged_by_other_keywords σ self d
    (kwargs : list (string * pyobj)) :
  σ !! self = Some d →
  has_fields d →
  (∀ field, field ∈ dispatch_fields → field ∉ kwargs.*1) →
  ∃ copy σ' (r : outcome getter),
    permute self kwargs σ = Some (Ret copy, σ') ∧
    select_getter self σ = Some (r, σ) ∧
    select_getter copy σ' = Some (r, σ').
Proof.
  intros H Hd Hkw. apply has_fields_lookup in Hd
    as (_ & [h Hh] & _ & [l Hl] & [a Ha]).
  assert (∀ field, field ∈ dispatch_fields →
            overwrite kwargs d !! field = d !! field) as Hsame.
  { intros field Hf. by apply overwrite_lookup_ne, Hkw. }
  unfold dispatch_fields in Hsame.
  eexists _, _, _. split; [by apply permute_eq|].
  split; [by apply (select_getter_eq _ _ _ _ _ _ H Ha Hh Hl)|].
  apply (select_getter_eq _ _ (overwrite kwargs d)); [apply lookup_new|..];
    (rewrite Hsame; [done|rewrite !elem_of_cons; tauto]).
Qed.

(** X9: after [permute(hint=hint')] the dispatch goes by the category
    stored in the parent and by the new hint.  With a category that has a
    getter, that getter is called on the copy whatever the new hint is;
    with a category that has none, or with no category and a new hint
    that is not a class, the unsupported-hint error names the new hint;
    with no category and a new hint that is a class, the getter of plain
    classes is called. *)
Theorem dispatch_after_permute_hint σ self d (a label hint' : pyobj) :
  σ !! self = Some d →
  d !! "hint_attr" = Some a →
  d !! "exception_label" = Some label →
  ∃ copy σ',
    permute self [("hint", hint')] σ = Some (Ret copy, σ') ∧
    (∀ g, a ≠ PyNone → _TYPING_ATTR_TO_GETTER a = Some g →
          get_cause_or_none copy σ' = g copy σ') ∧
    (a ≠ PyNone → _TYPING_ATTR_TO_GETTER a = None →
     get_cause_or_none copy σ' =
       Some (Raise (_BeartypeUtilRaisePepException
                      (msg_unsupported_pep label hint')), σ')) ∧
    (a = PyNone → isinstance_type hint' = true →
     get_cause_or_none copy σ' = get_cause_or_none_type copy σ') ∧
    (a = PyNone → isinstance_type hint' = false →
     get_cause_or_none copy σ' =
       Some (Raise (_BeartypeUtilRaisePepException
                      (msg_unsupported_nonpep label hint')), σ')).
Proof.
  intros H Ha Hl.
  exists (length σ), (σ ++ [<["hint" := hint']> d]).
  split; [exact (permute_eq [("hint", hint')] _ _ _ H)|].
  assert (H' := lookup_new σ (<["hint" := hint']> d)).
  assert (Ha' : <["hint" := hint']> d !! "hint_attr" = Some a)
    by by rewrite lookup_insert_ne.
  assert (Hl' : <["hint" := hint']> d !! "exception_label" = Some label)
    by by rewrite lookup_insert_ne.
  assert (Hh' : <["hint" := hint']> d !! "hint" = Some hint')
    by apply lookup_insert_eq.
  repeat split.
  - intros g Hn Hg.
    apply (get_cause_or_none_selected _ _ _ _ _ _ g H' Ha' Hh' Hl').
    by right.
  - intros Hn Hg.
    rewrite (get_cause_or_none_unsupported _ _ _ _ _ _ H' Ha' Hh' Hl').
    + apply is_None_false in Hn. by rewrite Hn.
    + by right.
  - intros -> Hc.
    apply (get_cause_or_none_selected _ _ _ _ _ _ _ H' Ha' Hh' Hl').
    by left.
  - intros -> Hc.
    rewrite (get_cause_or_none_unsupported _ _ _ _ _ _ H' Ha' Hh' Hl');
      [done|by left].
Qed.

(** X11: for one error label, the messages of the two unsupported-hint
    errors differ whatever the hints are, so the message tells which of
    the two paths raised. *)
Theorem unsupported_messages_differ (label hint hint' : pyobj) :
  msg_unsupported_nonpep label hint ≠ msg_unsupported_pep label hint'.
Proof.
  unfold msg_unsupported_nonpep, msg_unsupported_pep. intros Heq.
  apply (inj (String.app (fmt label))) in Heq.
  rewrite !append_String in Heq. discriminate.
Qed.

End DispatchMore.


Lemma dispatch_unchanged_by_other_keywords_witness :
  let _ := example_builtins in
  let _ := example_getters in
  let kwargs := [("pith", PyInt 1); ("cause_indent", PyStr "    ")] in
  [example_sleuth] !! 0 = Some example_sleuth ∧
  ∃ copy σ' (r : outcome getter),
    permute 0 kwargs [example_sleuth] = Some (Ret copy, σ') ∧
    select_getter 0 [example_sleuth] = Some (r, [example_sleuth]) ∧
    select_getter copy σ' = Some (r, σ').
Proof.
  cbn zeta. split; [reflexivity|].
  apply (@dispatch_unchanged_by_other_keywords example_builtins
           example_getters [example_sleuth] 0 example_sleuth
           [("pith", PyInt 1); ("cause_indent", PyStr "    ")]);
    [reflexivity|apply example_sleuth_has_fields|].
  intros field Hf. unfold dispatch_fields in Hf. cbn.
  rewrite !elem_of_cons in Hf. rewrite !not_elem_of_cons.
  destruct Hf as [->|[->|[->|Hf]]];
    [| | |by apply elem_of_nil in Hf];
    (repeat split; [discriminate..|apply not_elem_of_nil]).
Defined.

Lemma dispatch_after_permute_hint_witness :
  let _ := example_builtins in
  let _ := example_getters in
  let a := PyTyping "List" [] in
  let label := PyStr "List of integers" in
  let hint' := PyClass "int" in
  ([example_sleuth] !! 0 = Some example_sleuth ∧
   example_sleuth !! "hint_attr" = Some a ∧
   example_sleuth !! "exception_label" = Some label) ∧
  ∃ copy σ',
    permute 0 [("hint", hint')] [example_sleuth] = Some (Ret copy, σ') ∧
    (∀ g, a ≠ PyNone → _TYPING_ATTR_TO_GETTER a = Some g →
          get_cause_or_none copy σ' = g copy σ') ∧
    (a ≠ PyNone → _TYPING_ATTR_TO_GETTER a = None →
     get_cause_or_none copy σ' =
       Some (Raise (_BeartypeUtilRaisePepException
                      (msg_unsupported_pep label hint')), σ')) ∧
    (a = PyNone → isinstance_type hint' = true →
     get_cause_or_none copy σ' = get_cause_or_none_type copy σ') ∧
    (a = PyNone → isinstance_type hint' = false →
     get_cause_or_none copy σ' =
       Some (Raise (_BeartypeUtilRaisePepException
                      (msg_unsupported_nonpep label hint')), σ')).
Proof.
  cbn zeta. split; [repeat split|].
  apply (@dispatch_after_permute_hint example_builtins example_getters
           [example_sleuth] 0 example_sleuth (PyTyping "List" [])
           (PyStr "List of integers") (PyClass "int")); reflexivity.
Defined.

(** ** Construction, then dispatch *)

Section FreshSleuth.
Context {B : Builtins} {C : HintClassifier} {G : Getters}.

(** X10: on a sleuth as the constructor returns it, the dispatch goes by
    the classification of the hint passed to the constructor: the
    unsupported-hint error for a hint without category that is not a
    class, the getter of plain classes for a class without category, and
    for a hint with a category the getter of the table, or the
    unsupported-hint error when the table has none. *)
Theorem fresh_sleuth_dispatch (pith hint ci el : pyobj) (σ : heap) :
  isinstance_str ci = true →
  isinstance_str el = true →
  ∃ self σ',
    CauseSleuth pith hint ci el σ = Some (Ret self, σ') ∧
    (classify hint = PyNone → isinstance_type hint = false →
     get_cause_or_none self σ' =
       Some (Raise (_BeartypeUtilRaisePepException
                      (msg_unsupported_nonpep el hint)), σ')) ∧
    (classify hint = PyNone → isinstance_type hint = true →
     get_cause_or_none self σ' = get_cause_or_none_type self σ') ∧
    (classify hint ≠ PyNone →
     get_cause_or_none self σ' =
       match _TYPING_ATTR_TO_GETTER (classify hint) with
       | Some g => g self σ'
       | None => Some (Raise (_BeartypeUtilRaisePepException
                                (msg_unsupported_pep el hint)), σ')
       end).
Proof.
  intros Hci Hel. eexists _, _. split; [by apply CauseSleuth_eq|].
  set (d := sleuth_dict pith hint ci el).
  assert (H := lookup_new σ d).
  assert (Ha : d !! "hint_attr" = Some (classify hint))
    by (unfold d, sleuth_dict; by simplify_map_eq).
  assert (Hh : d !! "hint" = Some hint)
    by (unfold d, sleuth_dict; by simplify_map_eq).
  assert (Hl : d !! "exception_label" = Some el)
    by (unfold d, sleuth_dict; by simplify_map_eq).
  repeat split.
  - intros Hn Hc.
    rewrite (get_cause_or_none_unsupported _ _ _ _ _ _ H Ha Hh Hl).
    + by rewrite Hn.
    + left. by split.
  - intros Hn Hc.
    apply (get_cause_or_none_selected _ _ _ _ _ _ _ H Ha Hh Hl).
    left. by repeat split.
  - intros Hn. destruct (_TYPING_ATTR_TO_GETTER (classify hint)) as [g|] eqn:Hg.
    + apply (get_cause_or_none_selected _ _ _ _ _ _ _ H Ha Hh Hl).
      right. by split.
    + rewrite (get_cause_or_none_unsupported _ _ _ _ _ _ H Ha Hh Hl).
      * apply is_None_false in Hn. by rewrite Hn.
      * right. by split.
Qed.

End FreshSleuth.

Lemma fresh_sleuth_dispatch_witness :
  let _ := example_builtins in
  let _ := spec_classifier in
  let _ := example_getters in
  let hint := PyTuple [PyClass "int"; PyClass "str"] in
  let el := PyStr "Parameter x" in
  (isinstance_str (PyStr "  ") = true ∧ isinstance_str el = true) ∧
  ∃ self σ',
    CauseSleuth (PyInt 3) hint (PyStr "  ") el [] = Some (Ret self, σ') ∧
    (classify hint = PyNone → isinstance_type hint = false →
     get_cause_or_none self σ' =
       Some (Raise (_BeartypeUtilRaisePepException
                      (msg_unsupported_nonpep el hint)), σ')) ∧
    (classify hint = PyNone → isinstance_type hint = true →
     get_cause_or_none self σ' = get_cause_or_none_type self σ') ∧
    (classify hint ≠ PyNone →
     get_cause_or_none self σ' =
       match _TYPING_ATTR_TO_GETTER (classify hint) with
       | Some g => g self σ'
       | None => Some (Raise (_BeartypeUtilRaisePepException
                                (msg_unsupported_pep el hint)), σ')
       end).
Proof.
  cbn zeta. split; [split; reflexivity|].
  apply (@fresh_sleuth_dispatch example_builtins spec_classifier
           example_getters); reflexivity.
Defined.

(** * The hierarchy of [beartype.roar] *)

(** X12: a class of [roar.py] derives from [BeartypeException] if and
    only if it is not [BeartypeWarning]; every class that derives from
    [BeartypeException] is one that [roar.py] defines, and is an
    [Exception]. *)
Theorem roar_exceptions_derive_from_BeartypeException (c : roar.class) :
  (roar.issubclass c roar.BeartypeException = true ↔
   roar.defined c = true ∧ c ≠ roar.BeartypeWarning) ∧
  (roar.issubclass c roar.BeartypeException = true →
   roar.issubclass c roar.Exception = true) ∧
  roar.issubclass roar.BeartypeWarning roar.BeartypeException = false.
Proof.
  destruct c; vm_compute; (split; [split|split]);
    try done; try (by intros [? ?]); by split.
Qed.

(** X13: the exceptions of the cave, of decoration time and of call time
    are three separate families: no class derives from two of
    [BeartypeCaveException], [BeartypeDecorException] and
    [BeartypeCallException], and no warning derives from any of them. *)
Theorem roar_families_disjoint (c f1 f2 : roar.class) :
  f1 ∈ [roar.BeartypeCaveException; roar.BeartypeDecorException;
        roar.BeartypeCallException; roar.BeartypeWarning] →
  f2 ∈ [roar.BeartypeCaveException; roar.BeartypeDecorException;
        roar.BeartypeCallException; roar.BeartypeWarning] →
  roar.issubclass c f1 = true →
  roar.issubclass c f2 = true →
  f1 = f2.
Proof.
  rewrite !elem_of_cons.
  intros [->|[->|[->|[->|H1]]]] [->|[->|[->|[->|H2]]]];
    try (by apply elem_of_nil in H1); try (by apply elem_of_nil in H2);
    try done; destruct c; vm_compute; congruence.
Qed.

Lemma roar_families_disjoint_witness :
  (roar.issubclass roar.BeartypeCallTypeParamException
     roar.BeartypeCallException = true) ∧
  roar.BeartypeCallException = roar.BeartypeCallException.
Proof.
  split; [reflexivity|].
  apply (roar_families_disjoint roar.BeartypeCallTypeParamException
           roar.BeartypeCallException roar.BeartypeCallException);
    try reflexivity;
    rewrite !elem_of_cons; tauto.
Defined.

(** X14: only classes declared with [metaclass=_ABCMeta] are derived
    from in [roar.py]: a class declared without it has no subclass
    there. *)
Theorem roar_base_declares_ABCMeta (c b : roar.class) :
  roar.base c = Some b →
  roar.defined b = true →
  roar.declares_ABCMeta b = true.
Proof. destruct c; intros [= <-]; by vm_compute. Qed.

Lemma roar_base_declares_ABCMeta_witness :
  (roar.base roar.BeartypeDecorPep563Exception =
     Some roar.BeartypeDecorPepException ∧
   roar.defined roar.BeartypeDecorPepException = true) ∧
  roar.declares_ABCMeta roar.BeartypeDecorPepException = true.
Proof.
  split; [split; reflexivity|].
  apply (roar_base_declares_ABCMeta roar.BeartypeDecorPep563Exception
           roar.BeartypeDecorPepException); reflexivity.
Defined.

(** * Dispatch on a stale category *)

(** C2 (the code departs from it): [get_cause_or_none] raises the
    unsupported-hint error only for a hint without category that is not a
    class, or a hint whose category has no getter.  At the sleuth built
    for the class [int] and permuted to the hint [typing.List[int]], the
    hint has the category [typing.List], for which the table holds a
    getter, so neither case applies; the category stored in the sleuth is
    still [None], and [get_cause_or_none] raises the unsupported-hint
    error. *)
Theorem stale_category_rejects_supported_hint :
  let _ := example_builtins in
  let _ := spec_classifier in
  let _ := example_getters in
  let hint' := PyTyping "List" [PyClass "int"] in
  ∃ child σ d msg,
    (sleuth <- CauseSleuth (PyList [PyInt 42]) (PyClass "int")
                 (PyStr "  ") (PyStr "x") ;;
     permute sleuth [("hint", hint')]) [] = Some (Ret child, σ) ∧
    σ !! child = Some d ∧
    d !! "hint" = Some hint' ∧
    d !! "hint_attr" = Some PyNone ∧
    get_cause_or_none child σ =
      Some (Raise (_BeartypeUtilRaisePepException msg), σ) ∧
    classify hint' = PyTyping "List" [] ∧
    is_Some (_TYPING_ATTR_TO_GETTER (classify hint')) ∧
    ¬ (unsupported_nonpep (classify hint') hint' ∨
       unsupported_pep (classify hint')).
Proof.
  cbn zeta.
  set (hint' := PyTyping "List" [PyClass "int"]).
  set (d0 := @sleuth_dict spec_classifier (PyList [PyInt 42]) (PyClass "int")
               (PyStr "  ") (PyStr "x")).
  set (d := <["hint" := hint']> d0).
  assert (Hh : d !! "hint" = Some hint') by apply lookup_insert_eq.
  assert (Ha : d !! "hint_attr" = Some PyNone).
  { unfold d. rewrite lookup_insert_ne by done. apply lookup_insert_eq. }
  assert (Hl : d !! "exception_label" = Some (PyStr "x")).
  { unfold d, d0, sleuth_dict. rewrite !lookup_insert_ne by done.
    apply lookup_insert_eq. }
  exists 1, [d0; d], d,
    (@msg_unsupported_nonpep example_builtins (PyStr "x") hint').
  split.
  { unfold bind.
    rewrite (@CauseSleuth_eq example_builtins spec_classifier
               (PyList [PyInt 42]) (PyClass "int") (PyStr "  ") (PyStr "x")
               [] eq_refl eq_refl).
    exact (permute_eq [("hint", hint')] [d0] 0 d0 eq_refl). }
  split; [reflexivity|]. split; [exact Hh|]. split; [exact Ha|].
  split.
  { apply (@get_cause_or_none_unsupported example_builtins example_getters
             [d0; d] 1 d PyNone hint' (PyStr "x") eq_refl Ha Hh Hl).
    left. by split. }
  split; [reflexivity|]. split; [by eexists|].
  intros [[Hn _]|[_ Hg]]; [discriminate Hn|discriminate Hg].
Qed.

(** C4 (the code departs from it): when [get_cause_or_none] does not
    raise, its result is that of the getter of plain classes for a class
    without category.  At the sleuth built for [typing.List[int]] and
    permuted to the class [int], the hint is a class without category,
    but the category stored in the sleuth is still [typing.List]:
    [get_cause_or_none] calls the getter that the table holds for
    [typing.List], and on the pith ['x'] its result, [None], is not the
    cause that the getter of plain classes returns. *)
Theorem stale_category_selects_table_getter :
  let _ := example_builtins in
  let _ := spec_classifier in
  let _ := example_getters in
  let hint' := PyClass "int" in
  ∃ child σ d g cause,
    (sleuth <- CauseSleuth (PyStr "x") (PyTyping "List" [PyClass "int"])
                 (PyStr "  ") (PyStr "x") ;;
     permute sleuth [("hint", hint')]) [] = Some (Ret child, σ) ∧
    σ !! child = Some d ∧
    d !! "hint" = Some hint' ∧
    d !! "hint_attr" = Some (PyTyping "List" []) ∧
    classify hint' = PyNone ∧
    isinstance_type hint' = true ∧
    _TYPING_ATTR_TO_GETTER (PyTyping "List" []) = Some g ∧
    select_getter child σ = Some (Ret g, σ) ∧
    get_cause_or_none child σ = g child σ ∧
    get_cause_or_none child σ = Some (Ret PyNone, σ) ∧
    get_cause_or_none_type child σ = Some (Ret (PyStr cause), σ).
Proof.
  cbn zeta.
  pose (hint' := PyClass "int").
  pose (d0 := @sleuth_dict spec_classifier (PyStr "x")
               (PyTyping "List" [PyClass "int"]) (PyStr "  ") (PyStr "x")).
  pose (d := <["hint" := hint']> d0).
  pose (g := @get_cause_or_none_sequence_standard example_builtins
              (@get_cause_or_none_fuel example_builtins 2)).
  assert (Hh : d !! "hint" = Some hint') by apply lookup_insert_eq.
  assert (Ha : d !! "hint_attr" = Some (PyTyping "List" [])).
  { unfold d. rewrite lookup_insert_ne by done. apply lookup_insert_eq. }
  assert (Hl : d !! "exception_label" = Some (PyStr "x")).
  { unfold d, d0, sleuth_dict. rewrite !lookup_insert_ne by done.
    apply lookup_insert_eq. }
  assert (Hp : d !! "pith" = Some (PyStr "x")).
  { unfold d, d0, sleuth_dict. rewrite !lookup_insert_ne by done.
    apply lookup_insert_eq. }
  assert (Hsel : @selects example_getters (PyTyping "List" []) hint' g).
  { right. by split. }
  destruct (@get_cause_or_none_selected example_builtins example_getters
              [d0; d] 1 d _ _ _ g eq_refl Ha Hh Hl Hsel) as [Hs Hg].
  assert (Hrun : g 1 [d0; d] = Some (Ret PyNone, [d0; d])).
  { unfold g, get_cause_or_none_sequence_standard, bind.
    rewrite (getattr_Some [d0; d] 1 d "pith" _ eq_refl Hp).
    by rewrite (getattr_Some [d0; d] 1 d "hint" _ eq_refl Hh). }
  exists 1, [d0; d], d, g.
  exists (@repr example_builtins (PyStr "x") +:+ " is " +:+
          type_name (PyStr "x") +:+ ", not " +:+
          @repr example_builtins hint').
  split.
  { unfold bind.
    rewrite (@CauseSleuth_eq example_builtins spec_classifier
               (PyStr "x") (PyTyping "List" [PyClass "int"]) (PyStr "  ")
               (PyStr "x") [] eq_refl eq_refl).
    exact (permute_eq [("hint", hint')] [d0] 0 d0 eq_refl). }
  split; [reflexivity|]. split; [exact Hh|]. split; [exact Ha|].
  split; [reflexivity|]. split; [reflexivity|]. split; [reflexivity|].
  split; [exact Hs|]. split; [exact Hg|].
  split; [by rewrite Hg|].
  change (@get_cause_or_none_type example_getters)
    with (@get_cause_or_none_plain_class example_builtins).
  unfold get_cause_or_none_plain_class, bind.
  rewrite (getattr_Some [d0; d] 1 d "pith" _ eq_refl Hp).
  by rewrite (getattr_Some [d0; d] 1 d "hint" _ eq_refl Hh).
Qed.
